(** * MqttClient: connection life cycle, retries and subscriptions

    A shallow embedding of [src/Mqtt/MqttClient.ts].  The class is a state
    machine over one session object, the process-wide event emitter, the
    JavaScript timers and the suspended [await]s of its two asynchronous
    callbacks.  Every method of the class is a function on [World]; what the
    environment does (an event coming from the native layer, a timer
    firing, a promise resolving, the application calling a method) is an
    [Action]. *)

From Stdlib Require Import String Ascii List ZArith Bool Lia Arith.
From Stdlib Require Import Decimal DecimalString DecimalNat.
Import ListNotations.
Open Scope string_scope.
Open Scope list_scope.

(** ** JavaScript values and operators *)

Module JS.

(** A property of an object literal: missing, present with the value
    [undefined], or present with a value. *)
Inductive field (T : Type) : Type :=
| Absent
| Undefined
| Val (v : T).
Arguments Absent {T}.
Arguments Undefined {T}.
Arguments Val {T} v.

(** Reading a property: [undefined] is [None]. *)
Definition read {T} (f : field T) : option T :=
  match f with
  | Val v => Some v
  | _ => None
  end.

(** One property of [{ ...old, ...new }]: own properties of [new] win,
    also those that hold [undefined]. *)
Definition spread {T} (old new : field T) : field T :=
  match new with
  | Absent => old
  | _ => new
  end.

Definition truthy_num (z : Z) : bool := negb (z =? 0)%Z.
Definition truthy_str (s : string) : bool := negb (s =? "")%string.
Definition truthy_bool (b : bool) : bool := b.

(** [a || d] where [a] may be [undefined]. *)
Definition or {T} (truthy : T -> bool) (a : option T) (d : T) : T :=
  match a with
  | Some v => if truthy v then v else d
  | None => d
  end.

(** [a ?? d]. *)
Definition nullish {T} (a : option T) (d : T) : T :=
  match a with
  | Some v => v
  | None => d
  end.

(** A non-negative integer inside a template literal. *)
Definition show (n : nat) : string :=
  NilEmpty.string_of_uint (Nat.to_uint n).

End JS.
Import JS.

(** ** Data *)

Inductive CONNECTION_STATE : Type :=
| CONNECTED
| CONNECTING
| DISCONNECTED.

Definition CONNECTION_STATE_eqb (a b : CONNECTION_STATE) : bool :=
  match a, b with
  | CONNECTED, CONNECTED => true
  | CONNECTING, CONNECTING => true
  | DISCONNECTED, DISCONNECTED => true
  | _, _ => false
  end.

(** Reason codes are the protocol's numbers. *)
Definition Mqtt5ReasonCode : Type := Z.

Definition MqttQos : Type := nat.

(** The values of [MqttClient.constants.ts] that the class uses: the
    four members of the [MQTT_EVENTS] enum that it appends to identifiers,
    and [Mqtt5ReasonCode.DEFAULT].  The file is not among the sources, so
    the values are left open. *)
Record MQTT_EVENTS : Type := {
  CONNECTED_EVENT : string;
  DISCONNECTED_EVENT : string;
  SUBSCRIPTION_SUCCESS_EVENT : string;
  SUBSCRIPTION_FAILED_EVENT : string;
  DEFAULT : Mqtt5ReasonCode
}.

(** [MqttOptions] (and [MqttConnect], its subset): every property is
    optional. *)
Record MqttOptions : Type := {
  keepAlive : field Z;
  username : field string;
  password : field string;
  cleanSession : field bool;
  autoReconnect : field bool;
  retryCount : field Z;
  backoffTime : field Z;
  maxBackoffTime : field Z;
  jitter : field bool;
  enableSslConfig : field bool
}.

Definition noOptions : MqttOptions :=
  {| keepAlive := Absent; username := Absent; password := Absent;
     cleanSession := Absent; autoReconnect := Absent; retryCount := Absent;
     backoffTime := Absent; maxBackoffTime := Absent; jitter := Absent;
     enableSslConfig := Absent |}.

(** [{ ...old, ...new }] *)
Definition spreadOptions (old new : MqttOptions) : MqttOptions :=
  {| keepAlive := spread (keepAlive old) (keepAlive new);
     username := spread (username old) (username new);
     password := spread (password old) (password new);
     cleanSession := spread (cleanSession old) (cleanSession new);
     autoReconnect := spread (autoReconnect old) (autoReconnect new);
     retryCount := spread (retryCount old) (retryCount new);
     backoffTime := spread (backoffTime old) (backoffTime new);
     maxBackoffTime := spread (maxBackoffTime old) (maxBackoffTime new);
     jitter := spread (jitter old) (jitter new);
     enableSslConfig := spread (enableSslConfig old) (enableSslConfig new) |}.

(** [this.options?.p] *)
Definition opt {T} (o : option MqttOptions) (p : MqttOptions -> field T)
  : option T :=
  match o with
  | Some m => read (p m)
  | None => None
  end.

(** What an event carries: the reason code is all the class reads. *)
Record Ack : Type := {
  reasonCode : option Mqtt5ReasonCode;
  body : string
}.

(** Calls into [MqttJSIModule], in the order they are made. *)
Inductive NativeCall : Type :=
| createMqtt (clientId host : string) (port : Z) (enableSsl : bool)
| connectMqtt (clientId : string) (keepAlive : Z) (username password : string)
              (cleanSession : bool)
| disconnectMqtt (clientId : string)
| subscribeMqtt (eventId clientId topic : string) (qos : MqttQos)
| unsubscribeMqtt (eventId clientId topic : string)
| removeMqtt (clientId : string).

Inductive DisconnectType : Type :=
| forceDisconnected
| autoDisconnected.

(** Application callbacks are opaque: each has a number, calling it is
    recorded, and it may throw, depending on the reason code it is
    given.  A number alone stands for a callback that never throws. *)
Record Callback : Type := {
  name : nat;
  throwsOn : option Mqtt5ReasonCode -> bool
}.

Definition quiet (n : nat) : Callback :=
  {| name := n; throwsOn := fun _ => false |}.

Coercion quiet : nat >-> Callback.

Inductive UserCall : Type :=
| onReconnectIntercepterCalled (arg : option Mqtt5ReasonCode)
| onConnectCalled (cb : Callback) (ack : Ack)
| onConnectFailureCalled (cb : Callback) (code : option Mqtt5ReasonCode)
| onDisconnectCalled (cb : Callback) (code : option Mqtt5ReasonCode)
                     (options : option MqttOptions)
                     (disconnectType : DisconnectType) (retries : nat)
| onEventCalled (cb : Callback) (payload : Ack)
| onSuccessCalled (cb : option Callback) (ack : Ack)
| onErrorCalled (cb : option Callback) (error : Ack).

(** The callbacks the class hands to [onDisconnectInterceptor]. *)
Inductive Interceptor : Type :=
| autoReconnectHandler
| connectFailureCallback (cb : Callback)
| disconnectCallback (cb : Callback).

(** The listeners the class registers.  [tryCatch fallback callback] is
    the listener [onDisconnectInterceptor] builds: it calls [callback]
    with the event, and when that throws, once more with
    [{ reasonCode: fallback }]. *)
Inductive Handler : Type :=
| connectedHandler
| connectCallback (cb : Callback)
| subscriptionListener (cb : Callback)
| subscriptionSuccess (cb : option Callback)
| subscriptionFailed (cb : option Callback)
| tryCatch (fallback : Mqtt5ReasonCode) (callback : Interceptor).

(** Modelled from the spec: [src/Mqtt/EventEmitter.ts] is missing.  The
    registry keeps registrations in registration order; a registration is a
    slot, the token returned by [addListener] is the slot's position, and
    removing empties the slot, so a token deregisters exactly its own
    handler instance and [removeAllListeners] clears every handler of one
    identifier. *)
Module EventEmitter.

Definition t : Type := list (option (string * Handler)).

Definition addListener (eventId : string) (h : Handler) (e : t) : nat * t :=
  (List.length e, e ++ [Some (eventId, h)]).

Fixpoint remove (token : nat) (e : t) : t :=
  match e, token with
  | [], _ => []
  | _ :: r, O => None :: r
  | x :: r, S n => x :: remove n r
  end.

Definition removeAllListeners (eventId : string) (e : t) : t :=
  map (fun s =>
         match s with
         | Some (k, h) => if (k =? eventId)%string then None else Some (k, h)
         | None => None
         end) e.

(** The handlers [emit] calls for an identifier, in order. *)
Fixpoint listeners (eventId : string) (e : t) : list Handler :=
  match e with
  | [] => []
  | Some (k, h) :: r =>
      if (k =? eventId)%string then h :: listeners eventId r
      else listeners eventId r
  | None :: r => listeners eventId r
  end.

(** Every live registration, with its identifier. *)
Fixpoint registrations (e : t) : list (string * Handler) :=
  match e with
  | [] => []
  | Some kh :: r => kh :: registrations r
  | None :: r => registrations r
  end.

End EventEmitter.

(** A timer made by [setTimeout]: the arguments [getMqttBackoffTime] was
    called with to get its delay, and whether it can still fire.  The
    handle of a timer is its position in [timers]. *)
Record Timer : Type := {
  base : option Z;
  attempt : Z;
  cap : option Z;
  useJitter : option bool;
  pending : bool
}.

(** What is left of an asynchronous callback after its [await]. *)
Inductive Continuation : Type :=
| thenConnect (newOptions : option MqttOptions)
              (code : option Mqtt5ReasonCode)
| thenRetry (newOptions : option MqttOptions).

Record World : Type := {
  clientId : string;
  host : string;
  port : Z;
  options : option MqttOptions;
  retryTimer : option nat;
  currentRetryCount : nat;
  mqtt5DisconnectReasonCode : option Mqtt5ReasonCode;
  tag : nat;
  connectionStatus : CONNECTION_STATE;
  onReconnectIntercepter :
    option (option Mqtt5ReasonCode -> option MqttOptions);
  eventEmitter : EventEmitter.t;
  timers : list Timer;
  awaiting : list Continuation;
  native : list NativeCall;
  calls : list UserCall
}.

(** Assignments to one field. *)

Definition set_options (v : option MqttOptions) (w : World) : World :=
  {| clientId := clientId w;
     host := host w;
     port := port w;
     options := v;
     retryTimer := retryTimer w;
     currentRetryCount := currentRetryCount w;
     mqtt5DisconnectReasonCode := mqtt5DisconnectReasonCode w;
     tag := tag w;
     connectionStatus := connectionStatus w;
     onReconnectIntercepter := onReconnectIntercepter w;
     eventEmitter := eventEmitter w;
     timers := timers w;
     awaiting := awaiting w;
     native := native w;
     calls := calls w |}.

Definition set_retryTimer (v : option nat) (w : World) : World :=
  {| clientId := clientId w;
     host := host w;
     port := port w;
     options := options w;
     retryTimer := v;
     currentRetryCount := currentRetryCount w;
     mqtt5DisconnectReasonCode := mqtt5DisconnectReasonCode w;
     tag := tag w;
     connectionStatus := connectionStatus w;
     onReconnectIntercepter := onReconnectIntercepter w;
     eventEmitter := eventEmitter w;
     timers := timers w;
     awaiting := awaiting w;
     native := native w;
     calls := calls w |}.

Definition set_currentRetryCount (v : nat) (w : World) : World :=
  {| clientId := clientId w;
     host := host w;
     port := port w;
     options := options w;
     retryTimer := retryTimer w;
     currentRetryCount := v;
     mqtt5DisconnectReasonCode := mqtt5DisconnectReasonCode w;
     tag := tag w;
     connectionStatus := connectionStatus w;
     onReconnectIntercepter := onReconnectIntercepter w;
     eventEmitter := eventEmitter w;
     timers := timers w;
     awaiting := awaiting w;
     native := native w;
     calls := calls w |}.

Definition set_mqtt5DisconnectReasonCode (v : option Mqtt5ReasonCode) (w : World) : World :=
  {| clientId := clientId w;
     host := host w;
     port := port w;
     options := options w;
     retryTimer := retryTimer w;
     currentRetryCount := currentRetryCount w;
     mqtt5DisconnectReasonCode := v;
     tag := tag w;
     connectionStatus := connectionStatus w;
     onReconnectIntercepter := onReconnectIntercepter w;
     eventEmitter := eventEmitter w;
     timers := timers w;
     awaiting := awaiting w;
     native := native w;
     calls := calls w |}.

Definition set_tag (v : nat) (w : World) : World :=
  {| clientId := clientId w;
     host := host w;
     port := port w;
     options := options w;
     retryTimer := retryTimer w;
     currentRetryCount := currentRetryCount w;
     mqtt5DisconnectReasonCode := mqtt5DisconnectReasonCode w;
     tag := v;
     connectionStatus := connectionStatus w;
     onReconnectIntercepter := onReconnectIntercepter w;
     eventEmitter := eventEmitter w;
     timers := timers w;
     awaiting := awaiting w;
     native := native w;
     calls := calls w |}.

Definition set_connectionStatus (v : CONNECTION_STATE) (w : World) : World :=
  {| clientId := clientId w;
     host := host w;
     port := port w;
     options := options w;
     retryTimer := retryTimer w;
     currentRetryCount := currentRetryCount w;
     mqtt5DisconnectReasonCode := mqtt5DisconnectReasonCode w;
     tag := tag w;
     connectionStatus := v;
     onReconnectIntercepter := onReconnectIntercepter w;
     eventEmitter := eventEmitter w;
     timers := timers w;
     awaiting := awaiting w;
     native := native w;
     calls := calls w |}.

Definition set_onReconnectIntercepter (v : option (option Mqtt5ReasonCode -> option MqttOptions)) (w : World) : World :=
  {| clientId := clientId w;
     host := host w;
     port := port w;
     options := options w;
     retryTimer := retryTimer w;
     currentRetryCount := currentRetryCount w;
     mqtt5DisconnectReasonCode := mqtt5DisconnectReasonCode w;
     tag := tag w;
     connectionStatus := connectionStatus w;
     onReconnectIntercepter := v;
     eventEmitter := eventEmitter w;
     timers := timers w;
     awaiting := awaiting w;
     native := native w;
     calls := calls w |}.

Definition set_eventEmitter (v : EventEmitter.t) (w : World) : World :=
  {| clientId := clientId w;
     host := host w;
     port := port w;
     options := options w;
     retryTimer := retryTimer w;
     currentRetryCount := currentRetryCount w;
     mqtt5DisconnectReasonCode := mqtt5DisconnectReasonCode w;
     tag := tag w;
     connectionStatus := connectionStatus w;
     onReconnectIntercepter := onReconnectIntercepter w;
     eventEmitter := v;
     timers := timers w;
     awaiting := awaiting w;
     native := native w;
     calls := calls w |}.

Definition set_timers (v : list Timer) (w : World) : World :=
  {| clientId := clientId w;
     host := host w;
     port := port w;
     options := options w;
     retryTimer := retryTimer w;
     currentRetryCount := currentRetryCount w;
     mqtt5DisconnectReasonCode := mqtt5DisconnectReasonCode w;
     tag := tag w;
     connectionStatus := connectionStatus w;
     onReconnectIntercepter := onReconnectIntercepter w;
     eventEmitter := eventEmitter w;
     timers := v;
     awaiting := awaiting w;
     native := native w;
     calls := calls w |}.

Definition set_awaiting (v : list Continuation) (w : World) : World :=
  {| clientId := clientId w;
     host := host w;
     port := port w;
     options := options w;
     retryTimer := retryTimer w;
     currentRetryCount := currentRetryCount w;
     mqtt5DisconnectReasonCode := mqtt5DisconnectReasonCode w;
     tag := tag w;
     connectionStatus := connectionStatus w;
     onReconnectIntercepter := onReconnectIntercepter w;
     eventEmitter := eventEmitter w;
     timers := timers w;
     awaiting := v;
     native := native w;
     calls := calls w |}.

Definition set_native (v : list NativeCall) (w : World) : World :=
  {| clientId := clientId w;
     host := host w;
     port := port w;
     options := options w;
     retryTimer := retryTimer w;
     currentRetryCount := currentRetryCount w;
     mqtt5DisconnectReasonCode := mqtt5DisconnectReasonCode w;
     tag := tag w;
     connectionStatus := connectionStatus w;
     onReconnectIntercepter := onReconnectIntercepter w;
     eventEmitter := eventEmitter w;
     timers := timers w;
     awaiting := awaiting w;
     native := v;
     calls := calls w |}.

Definition set_calls (v : list UserCall) (w : World) : World :=
  {| clientId := clientId w;
     host := host w;
     port := port w;
     options := options w;
     retryTimer := retryTimer w;
     currentRetryCount := currentRetryCount w;
     mqtt5DisconnectReasonCode := mqtt5DisconnectReasonCode w;
     tag := tag w;
     connectionStatus := connectionStatus w;
     onReconnectIntercepter := onReconnectIntercepter w;
     eventEmitter := eventEmitter w;
     timers := timers w;
     awaiting := awaiting w;
     native := native w;
     calls := v |}.

(** ** The runtime: native calls, callbacks, timers, suspended awaits *)

Definition invoke (c : NativeCall) (w : World) : World :=
  set_native (native w ++ [c]) w.

Definition record (c : UserCall) (w : World) : World :=
  set_calls (calls w ++ [c]) w.

Definition suspend (k : Continuation) (w : World) : World :=
  set_awaiting (awaiting w ++ [k]) w.

Fixpoint cancel (handle : nat) (l : list Timer) : list Timer :=
  match l, handle with
  | [], _ => []
  | t :: r, O =>
      {| base := base t; attempt := attempt t; cap := cap t;
         useJitter := useJitter t; pending := false |} :: r
  | t :: r, S n => t :: cancel n r
  end.

(** [clearTimeout(handle)]; an [undefined] or spent handle does nothing. *)
Definition clearTimeout (handle : option nat) (w : World) : World :=
  match handle with
  | Some h => set_timers (cancel h (timers w)) w
  | None => w
  end.

Definition setTimeout (t : Timer) (w : World) : nat * World :=
  (List.length (timers w), set_timers (timers w ++ [t]) w).

Definition addListener (eventId : string) (h : Handler) (w : World)
  : nat * World :=
  let (token, e) := EventEmitter.addListener eventId h (eventEmitter w) in
  (token, set_eventEmitter e w).

(** [this.onReconnectIntercepter?.(this.mqtt5DisconnectReasonCode)]: the
    value its promise resolves to. *)
Definition askIntercepter (w : World) : option MqttOptions * World :=
  match onReconnectIntercepter w with
  | Some f =>
      (f (mqtt5DisconnectReasonCode w),
       record (onReconnectIntercepterCalled (mqtt5DisconnectReasonCode w)) w)
  | None => (None, w)
  end.

(** ** The class *)

Section MqttClient.

Variable EV : MQTT_EVENTS.

(** The field initialisers, with the process-wide emitter as it is. *)
Definition fresh (e : EventEmitter.t) (clientId host : string) (port : Z)
           (options : option MqttOptions) : World :=
  {| clientId := clientId; host := host; port := port; options := options;
     retryTimer := None; currentRetryCount := 0;
     mqtt5DisconnectReasonCode := None; tag := 0;
     connectionStatus := DISCONNECTED; onReconnectIntercepter := None;
     eventEmitter := e; timers := []; awaiting := []; native := [];
     calls := [] |}.

(** The listener wraps the callback in [try]/[catch] and calls it again
    with the default reason code when it throws. *)
Definition onDisconnectInterceptor (callback : Interceptor) (w : World)
  : nat * World :=
  addListener (clientId w ++ DISCONNECTED_EVENT EV)%string
              (tryCatch (DEFAULT EV) callback) w.

Definition setOnConnectCallback (callback : Handler) (w : World)
  : nat * World :=
  addListener (clientId w ++ CONNECTED_EVENT EV)%string callback w.

Definition setOnConnectFailureCallback (callback : Callback) (w : World)
  : nat * World :=
  onDisconnectInterceptor (connectFailureCallback callback) w.

Definition setOnDisconnectCallback (callback : Callback) (w : World)
  : nat * World :=
  onDisconnectInterceptor (disconnectCallback callback) w.

Definition setOnReconnectIntercepter
           (callback : option Mqtt5ReasonCode -> option MqttOptions)
           (w : World) : World :=
  set_onReconnectIntercepter (Some callback) w.

Definition constructor (e : EventEmitter.t) (clientId host : string)
           (port : Z) (options : option MqttOptions) : World :=
  let w := fresh e clientId host port options in
  if negb (truthy_str host) then w
  else
    let w :=
      invoke (createMqtt clientId host port
                         (nullish (opt options enableSslConfig) false)) w in
    let w := snd (setOnConnectCallback connectedHandler w) in
    if or truthy_bool (opt options autoReconnect) false
    then snd (onDisconnectInterceptor autoReconnectHandler w)
    else w.

Definition connection (w : World) : World :=
  if negb (CONNECTION_STATE_eqb (connectionStatus w) CONNECTING) then w
  else
    let w :=
      invoke (connectMqtt (clientId w)
                (or truthy_num (opt (options w) keepAlive) 60%Z)
                (or truthy_str (opt (options w) username) "")
                (or truthy_str (opt (options w) password) "")
                (or truthy_bool (opt (options w) cleanSession) true)) w in
    let w := clearTimeout (retryTimer w) w in
    match opt (options w) retryCount with
    | Some n =>
        if truthy_num n && (Z.of_nat (currentRetryCount w) <? n)%Z
        then
          let (handle, w') :=
            setTimeout
              {| base := opt (options w) backoffTime;
                 attempt :=
                   nullish (Some (Z.of_nat (currentRetryCount w))) 1%Z;
                 cap := opt (options w) maxBackoffTime;
                 useJitter := opt (options w) jitter;
                 pending := true |} w in
          set_retryTimer (Some handle) w'
        else w
    | None => w
    end.

Definition resetConnectVariables (w : World) : World :=
  set_connectionStatus CONNECTING (set_currentRetryCount 0 w).

Definition resetOptions (o : option MqttOptions) (w : World) : World :=
  match o with
  | Some new =>
      set_options
        (Some (spreadOptions
                 (match options w with Some old => old | None => noOptions end)
                 new)) w
  | None => w
  end.

Definition connect (o : option MqttOptions) (w : World) : World :=
  connection (resetOptions o (resetConnectVariables w)).

(** The timer's callback up to its [await]; [status] is what
    [getConnectionStatus()] answers, that is the native layer's own
    view. *)
Definition retryCallback (status : CONNECTION_STATE) (w : World) : World :=
  let w := set_currentRetryCount (S (currentRetryCount w)) w in
  if negb (CONNECTION_STATE_eqb status CONNECTED)
  then let (newOptions, w) := askIntercepter w in
       suspend (thenRetry newOptions) w
  else w.

(** The rest of an asynchronous callback, once its promise resolved. *)
Definition continue (k : Continuation) (w : World) : World :=
  match k with
  | thenConnect newOptions code =>
      set_mqtt5DisconnectReasonCode code (connect newOptions w)
  | thenRetry newOptions => connection (resetOptions newOptions w)
  end.

(** A callback of [onDisconnectInterceptor] called once, and whether it
    threw.  The auto-reconnect callback is [async]: it never throws into
    its caller. *)
Definition intercept (c : Interceptor) (ack : Ack) (w : World)
  : World * bool :=
  match c with
  | autoReconnectHandler =>
      (if CONNECTION_STATE_eqb (connectionStatus w) CONNECTED
       then let (newOptions, w) := askIntercepter w in
            suspend (thenConnect newOptions (reasonCode ack)) w
       else set_mqtt5DisconnectReasonCode (reasonCode ack) w,
       false)
  | connectFailureCallback cb =>
      if CONNECTION_STATE_eqb (connectionStatus w) CONNECTING
      then (record (onConnectFailureCalled cb (reasonCode ack)) w,
            throwsOn cb (reasonCode ack))
      else (w, false)
  | disconnectCallback cb =>
      if negb (CONNECTION_STATE_eqb (connectionStatus w) CONNECTING)
      then (record
              (onDisconnectCalled cb (reasonCode ack) (options w)
                 (if CONNECTION_STATE_eqb (connectionStatus w) DISCONNECTED
                  then forceDisconnected else autoDisconnected)
                 (currentRetryCount w)) w,
            throwsOn cb (reasonCode ack))
      else (w, false)
  end.

(** One listener called with an event.  A listener that throws ends
    there, and the emitter goes on with the next one. *)
Definition handle (h : Handler) (ack : Ack) (w : World) : World :=
  match h with
  | connectedHandler =>
      set_mqtt5DisconnectReasonCode None
        (set_connectionStatus CONNECTED (set_currentRetryCount 0 w))
  | connectCallback cb => record (onConnectCalled cb ack) w
  | subscriptionListener cb => record (onEventCalled cb ack) w
  | subscriptionSuccess cb => record (onSuccessCalled cb ack) w
  | subscriptionFailed cb => record (onErrorCalled cb ack) w
  | tryCatch fallback callback =>
      let (w1, threw) := intercept callback ack w in
      if threw
      then fst (intercept callback
                          {| reasonCode := Some fallback; body := "" |} w1)
      else w1
  end.

(** The emitter delivering an event: every listener of the identifier,
    in registration order. *)
Definition emit (eventId : string) (ack : Ack) (w : World) : World :=
  fold_left (fun w h => handle h ack w)
            (EventEmitter.listeners eventId (eventEmitter w)) w.

Definition getIdPrefix (w : World) : string :=
  ("mqtt_client#" ++ clientId w)%string.

Definition getMqttSubscribeEventId (topic : string) (qos : MqttQos)
           (w : World) : string * World :=
  let prefix := getIdPrefix w in
  let w := set_tag (S (tag w)) w in
  ((prefix ++ "#subscribe_mqtt#" ++ topic ++ "#" ++ show qos ++ "#"
           ++ show (tag w))%string, w).

(** What [subscribe] returns: the three registrations its [remove]
    closes over. *)
Record Subscription : Type := {
  listener : nat;
  success : nat;
  failed : nat
}.

Definition subscribe (topic : string) (qos : option MqttQos)
           (onEvent : Callback) (onSuccess onError : option Callback)
           (w : World) : Subscription * World :=
  let qos := nullish qos 1 in
  let (eventId, w) := getMqttSubscribeEventId topic qos w in
  let w := invoke (subscribeMqtt eventId (clientId w) topic qos) w in
  let (l, w) := addListener eventId (subscriptionListener onEvent) w in
  let (s, w) :=
    addListener (eventId ++ SUBSCRIPTION_SUCCESS_EVENT EV)%string
                (subscriptionSuccess onSuccess) w in
  let (f, w) :=
    addListener (eventId ++ SUBSCRIPTION_FAILED_EVENT EV)%string
                (subscriptionFailed onError) w in
  ({| listener := l; success := s; failed := f |}, w).

(** A token's [remove()]. *)
Definition removeListener (token : nat) (w : World) : World :=
  set_eventEmitter (EventEmitter.remove token (eventEmitter w)) w.

(** The [remove()] of the object [subscribe] returned. *)
Definition removeSubscription (s : Subscription) (w : World) : World :=
  removeListener (failed s) (removeListener (success s)
                               (removeListener (listener s) w)).

Definition disconnect (w : World) : World :=
  invoke (disconnectMqtt (clientId w))
         (set_connectionStatus DISCONNECTED w).

Definition remove (w : World) : World :=
  let w := invoke (removeMqtt (clientId w)) w in
  let w :=
    set_eventEmitter
      (EventEmitter.removeAllListeners
         (clientId w ++ DISCONNECTED_EVENT EV)%string (eventEmitter w)) w in
  set_eventEmitter
    (EventEmitter.removeAllListeners
       (clientId w ++ CONNECTED_EVENT EV)%string (eventEmitter w)) w.

(** ** What can happen to a session *)

Inductive Action : Type :=
| Connect (o : option MqttOptions)
| Disconnect
| Remove
| Subscribe (topic : string) (qos : option MqttQos) (onEvent : Callback)
            (onSuccess onError : option Callback)
| RemoveSubscription (s : Subscription)
| SetOnReconnectIntercepter
    (f : option Mqtt5ReasonCode -> option MqttOptions)
| SetOnConnectCallback (cb : Callback)
| SetOnConnectFailureCallback (cb : Callback)
| SetOnDisconnectCallback (cb : Callback)
| RemoveListener (token : nat)
| Emit (eventId : string) (ack : Ack)
| Fire (handle : nat) (status : CONNECTION_STATE)
| Resume (n : nat).

Fixpoint drop {A} (n : nat) (l : list A) : list A :=
  match l, n with
  | [], _ => []
  | _ :: r, O => r
  | x :: r, S n => x :: drop n r
  end.

(** A pending timer fires: it is spent, and its callback runs. *)
Definition fire (h : nat) (status : CONNECTION_STATE) (w : World) : World :=
  match nth_error (timers w) h with
  | Some t =>
      if pending t
      then retryCallback status (set_timers (cancel h (timers w)) w)
      else w
  | None => w
  end.

(** The promise a callback awaits resolves. *)
Definition resume (n : nat) (w : World) : World :=
  match nth_error (awaiting w) n with
  | Some k => continue k (set_awaiting (drop n (awaiting w)) w)
  | None => w
  end.

Definition step (w : World) (a : Action) : World :=
  match a with
  | Connect o => connect o w
  | Disconnect => disconnect w
  | Remove => remove w
  | Subscribe topic qos onEvent onSuccess onError =>
      snd (subscribe topic qos onEvent onSuccess onError w)
  | RemoveSubscription s => removeSubscription s w
  | SetOnReconnectIntercepter f => setOnReconnectIntercepter f w
  | SetOnConnectCallback cb => snd (setOnConnectCallback (connectCallback cb) w)
  | SetOnConnectFailureCallback cb => snd (setOnConnectFailureCallback cb w)
  | SetOnDisconnectCallback cb => snd (setOnDisconnectCallback cb w)
  | RemoveListener token => removeListener token w
  | Emit eventId ack => emit eventId ack w
  | Fire h status => fire h status w
  | Resume n => resume n w
  end.

Definition run (l : list Action) (w : World) : World := fold_left step l w.

End MqttClient.

(** ** Reachable sessions and their invariant *)

(** A session made by the constructor on an emitter that holds nothing
    yet, after any sequence of actions. *)
Definition reachable (EV : MQTT_EVENTS) (w : World) : Prop :=
  exists clientId host port options actions,
    w = run EV actions (constructor EV [] clientId host port options).

Definition cleanSessionSent (c : NativeCall) : bool :=
  match c with
  | connectMqtt _ _ _ _ cleanSession => cleanSession
  | _ => true
  end.

Definition isPending (l : list Timer) (h : nat) : Prop :=
  exists t, nth_error l h = Some t /\ pending t = true.

Definition pendingTimers (l : list Timer) : list Timer :=
  filter pending l.

Record Inv (EV : MQTT_EVENTS) (w : World) : Prop := {
  inv_code :
    connectionStatus w = CONNECTED -> mqtt5DisconnectReasonCode w = None;
  inv_timer :
    forall h, isPending (timers w) h -> retryTimer w = Some h;
  inv_connected :
    forall k,
      In (k, connectedHandler) (EventEmitter.registrations (eventEmitter w)) ->
      k = (clientId w ++ CONNECTED_EVENT EV)%string;
  inv_clean :
    forallb cleanSessionSent (native w) = true
}.

(** ** The backoff helper *)

(** Modelled from the spec: [getMqttBackoffTime] of [MqttClient.utils.ts]
    is missing, so the helper is a parameter [g] of what is said about
    delays, called as the class calls it: base, retry count, cap, jitter.
    The spec on it: without jitter the delay before retry number
    [attempt], counted from 1, is [min(cap, base * 2^(attempt-1))], that
    is 100, 200, 400 ms from a base of 100; the class hands the helper
    the number of retries already made, which is [attempt - 1]. *)
Definition exponentialBackoff
           (g : option Z -> Z -> option Z -> option bool -> Z) : Prop :=
  forall (baseDelay capDelay : Z) (retries : nat),
    (0 < baseDelay)%Z -> (0 < capDelay)%Z ->
    g (Some baseDelay) (Z.of_nat retries) (Some capDelay) (Some false)
    = Z.min capDelay (baseDelay * 2 ^ Z.of_nat retries)%Z.

(** The delay of a timer: the helper on the arguments it was scheduled
    with. *)
Definition delayWith (g : option Z -> Z -> option Z -> option bool -> Z)
           (t : Timer) : Z :=
  g (base t) (attempt t) (cap t) (useJitter t).

(** ** Merging, property by property *)

(** One property of [{ ...old, ...new }], said without [spread]: a
    property [new] has, were it with the value [undefined], is [new]'s;
    one it does not have is [old]'s. *)
Definition wins {T} (old new merged : field T) : Prop :=
  match new with
  | Absent => merged = old
  | Undefined => merged = Undefined
  | Val v => merged = Val v
  end.

Definition shallowMerge (old new merged : MqttOptions) : Prop :=
  wins (keepAlive old) (keepAlive new) (keepAlive merged) /\
  wins (username old) (username new) (username merged) /\
  wins (password old) (password new) (password merged) /\
  wins (cleanSession old) (cleanSession new) (cleanSession merged) /\
  wins (autoReconnect old) (autoReconnect new) (autoReconnect merged) /\
  wins (retryCount old) (retryCount new) (retryCount merged) /\
  wins (backoffTime old) (backoffTime new) (backoffTime merged) /\
  wins (maxBackoffTime old) (maxBackoffTime new) (maxBackoffTime merged) /\
  wins (jitter old) (jitter new) (jitter merged) /\
  wins (enableSslConfig old) (enableSslConfig new) (enableSslConfig merged).

(** The session's options after an override was merged in: untouched when
    there is no override, the shallow merge otherwise (into no properties
    at all when the session had no options). *)
Definition mergedInto (old override result : option MqttOptions) : Prop :=
  match override with
  | None => result = old
  | Some new =>
      exists merged,
        result = Some merged /\
        shallowMerge (match old with Some o => o | None => noOptions end)
                     new merged
  end.

(** ** Scenarios *)

(** A value of [MQTT_EVENTS] to run examples with. *)
Definition events : MQTT_EVENTS :=
  {| CONNECTED_EVENT := "connected";
     DISCONNECTED_EVENT := "disconnected";
     SUBSCRIPTION_SUCCESS_EVENT := "subscribe_success";
     SUBSCRIPTION_FAILED_EVENT := "subscribe_failed";
     DEFAULT := (-1)%Z |}.

Definition ackOf (code : option Mqtt5ReasonCode) : Ack :=
  {| reasonCode := code; body := "" |}.

(** [retryCount], [backoffTime], [maxBackoffTime] given and jitter off. *)
Definition retryOptions (retries backoff maxBackoff : Z) : MqttOptions :=
  {| keepAlive := Absent; username := Absent; password := Absent;
     cleanSession := Absent; autoReconnect := Absent;
     retryCount := Val retries; backoffTime := Val backoff;
     maxBackoffTime := Val maxBackoff; jitter := Val false;
     enableSslConfig := Absent |}.

(** [connect()], then each retry timer in turn fires while the native
    layer reports [status i], and its callback resumes. *)
Definition neverConfirmed (status : nat -> CONNECTION_STATE) (rounds : nat)
  : list Action :=
  Connect None
  :: flat_map (fun i => [Fire i (status i); Resume 0]) (seq 0 rounds).

Definition autoReconnectOptions : MqttOptions :=
  {| keepAlive := Absent; username := Absent; password := Absent;
     cleanSession := Absent; autoReconnect := Val true;
     retryCount := Val 3%Z; backoffTime := Absent;
     maxBackoffTime := Absent; jitter := Absent;
     enableSslConfig := Absent |}.

(** A session with auto-reconnect and an interceptor that connects and is
    confirmed. *)
Definition connectedSession : World :=
  run events
      [SetOnReconnectIntercepter (fun _ => None);
       Connect None;
       Emit "c1connected" (ackOf (Some 0%Z))]
      (constructor events [] "c1" "broker" 1883%Z (Some autoReconnectOptions)).

(** A session with two subscriptions to one topic. *)
Definition twoSubscriptions : World :=
  run events
      [Subscribe "news" None 1 None None; Subscribe "news" None 2 None None]
      (constructor events [] "c1" "broker" 1883%Z None).

(** A session with a connect-failure and a disconnect callback, while it
    is connecting. *)
Definition listeningSession : World :=
  run events
      [SetOnConnectFailureCallback 7; SetOnDisconnectCallback 8;
       Connect None]
      (constructor events [] "c1" "broker" 1883%Z (Some autoReconnectOptions)).

(** Client "c1" of "broker:1883" with three retries from 100 ms, capped at
    10 s, that the native layer never confirms. *)
Definition unconfirmedSession : World :=
  run events (neverConfirmed (fun _ => CONNECTING) 3)
      (constructor events [] "c1" "broker" 1883%Z
                   (Some (retryOptions 3 100 10000))).

(** An action that leaves the registration with token [i] in place. *)
Definition spares (i : nat) (a : Action) : bool :=
  match a with
  | Remove => false
  | RemoveListener token => negb (token =? i)%nat
  | RemoveSubscription s =>
      negb (listener s =? i)%nat && negb (success s =? i)%nat
      && negb (failed s =? i)%nat
  | _ => true
  end.

(** New credentials, as an interceptor would return them. *)
Definition freshCredentials : MqttOptions :=
  {| keepAlive := Absent; username := Val "alice"; password := Val "secret";
     cleanSession := Absent; autoReconnect := Absent; retryCount := Absent;
     backoffTime := Absent; maxBackoffTime := Absent; jitter := Absent;
     enableSslConfig := Absent |}.

(** A connected session with auto-reconnect, user name "bob", and an
    interceptor that returns [freshCredentials]. *)
Definition refreshingSession : World :=
  run events
      [SetOnReconnectIntercepter (fun _ => Some freshCredentials);
       Connect (Some {| keepAlive := Val 30%Z; username := Val "bob";
                        password := Absent; cleanSession := Absent;
                        autoReconnect := Absent; retryCount := Absent;
                        backoffTime := Absent; maxBackoffTime := Absent;
                        jitter := Absent; enableSslConfig := Absent |});
       Emit "c1connected" (ackOf (Some 0%Z))]
      (constructor events [] "c1" "broker" 1883%Z (Some autoReconnectOptions)).

(** A session just constructed, with auto-reconnect. *)
Definition newSession : World :=
  constructor events [] "c1" "broker" 1883%Z (Some autoReconnectOptions).

(** A connecting session with an interceptor that returns
    [freshCredentials]. *)
Definition retryingWithIntercepter : World :=
  setOnReconnectIntercepter (fun _ => Some freshCredentials)
    (connect None
       (constructor events [] "c1" "broker" 1883%Z
                    (Some (retryOptions 3 100 10000)))).

(** The listener falls back on [Mqtt5ReasonCode.DEFAULT] when its callback
    throws, as every listener [onDisconnectInterceptor] builds does. *)
Definition defaultFallback (EV : MQTT_EVENTS) (h : Handler) : bool :=
  match h with
  | tryCatch fallback _ => (fallback =? DEFAULT EV)%Z
  | _ => true
  end.

Definition fallbacks (EV : MQTT_EVENTS) (e : EventEmitter.t) : bool :=
  forallb (fun kh => defaultFallback EV (snd kh)) (EventEmitter.registrations e).

(** A callback that throws whatever it is given. *)
Definition throwing (n : nat) : Callback :=
  {| name := n; throwsOn := fun _ => true |}.



(** [s] is a prefix of [k]. *)
Definition startsWith (s k : string) : bool := String.prefix s k.

(** The registrations whose identifier begins with [s]. *)
Definition registeredUnder (s : string) (e : EventEmitter.t)
  : list (string * Handler) :=
  filter (fun kh => startsWith s (fst kh)) (EventEmitter.registrations e).

(** The state the connected handler leaves. *)
Definition confirmed (w : World) : Prop :=
  currentRetryCount w = 0 /\ connectionStatus w = CONNECTED /\
  mqtt5DisconnectReasonCode w = None.

(** What a listener tells the application, and what it leaves suspended,
    when it is called with [ack] and sees the session as it is in [w]. *)
Definition told (w : World) (ack : Ack) (h : Handler) : list UserCall :=
  match h with
  | connectedHandler => []
  | connectCallback cb => [onConnectCalled cb ack]
  | subscriptionListener cb => [onEventCalled cb ack]
  | subscriptionSuccess cb => [onSuccessCalled cb ack]
  | subscriptionFailed cb => [onErrorCalled cb ack]
  | tryCatch _ autoReconnectHandler =>
      match connectionStatus w, onReconnectIntercepter w with
      | CONNECTED, Some _ =>
          [onReconnectIntercepterCalled (mqtt5DisconnectReasonCode w)]
      | _, _ => []
      end
  | tryCatch fallback (connectFailureCallback cb) =>
      match connectionStatus w with
      | CONNECTING =>
          onConnectFailureCalled cb (reasonCode ack)
          :: (if throwsOn cb (reasonCode ack)
              then [onConnectFailureCalled cb (Some fallback)]
              else [])
      | _ => []
      end
  | tryCatch fallback (disconnectCallback cb) =>
      match connectionStatus w with
      | CONNECTING => []
      | DISCONNECTED =>
          onDisconnectCalled cb (reasonCode ack) (options w)
                             forceDisconnected (currentRetryCount w)
          :: (if throwsOn cb (reasonCode ack)
              then [onDisconnectCalled cb (Some fallback) (options w)
                                       forceDisconnected (currentRetryCount w)]
              else [])
      | CONNECTED =>
          onDisconnectCalled cb (reasonCode ack) (options w)
                             autoDisconnected (currentRetryCount w)
          :: (if throwsOn cb (reasonCode ack)
              then [onDisconnectCalled cb (Some fallback) (options w)
                                       autoDisconnected (currentRetryCount w)]
              else [])
      end
  end.

Definition deferred (w : World) (ack : Ack) (h : Handler)
  : list Continuation :=
  match h, connectionStatus w with
  | tryCatch _ autoReconnectHandler, CONNECTED =>
      [thenConnect
         (match onReconnectIntercepter w with
          | Some f => f (mqtt5DisconnectReasonCode w)
          | None => None
          end)
         (reasonCode ack)]
  | _, _ => []
  end.

(** Two states a listener cannot tell apart. *)
Definition sameView (w w0 : World) : Prop :=
  connectionStatus w = connectionStatus w0 /\
  currentRetryCount w = currentRetryCount w0 /\
  options w = options w0 /\
  onReconnectIntercepter w = onReconnectIntercepter w0 /\
  (connectionStatus w0 = CONNECTED ->
   mqtt5DisconnectReasonCode w = mqtt5DisconnectReasonCode w0).

(** ** What the further properties speak of *)

(** A call the session makes after construction: for its own client, with
    a keep-alive that is not 0 and a clean session; never [createMqtt] or
    [unsubscribeMqtt]. *)
Definition sessionCall (cid : string) (c : NativeCall) : bool :=
  match c with
  | createMqtt _ _ _ _ => false
  | connectMqtt id k _ _ cs => (id =? cid)%string && negb (k =? 0)%Z && cs
  | disconnectMqtt id => (id =? cid)%string
  | subscribeMqtt _ id _ _ => (id =? cid)%string
  | unsubscribeMqtt _ _ _ => false
  | removeMqtt id => (id =? cid)%string
  end.

(** The identifiers handed to [subscribeMqtt], in order. *)
Definition subscribed (l : list NativeCall) : list string :=
  flat_map (fun c => match c with
                     | subscribeMqtt eventId _ _ _ => [eventId]
                     | _ => []
                     end) l.

(** The identifier of the subscription with tag [k]. *)
Definition eventIdOf (cid topic : string) (qos : MqttQos) (k : nat) : string :=
  ("mqtt_client#" ++ cid ++ "#subscribe_mqtt#" ++ topic ++ "#" ++ show qos
     ++ "#" ++ show k)%string.

Fixpoint hasHash (s : string) : bool :=
  match s with
  | EmptyString => false
  | String c r => (c =? "#")%char || hasHash r
  end.

(** Only retry callbacks are suspended, no auto-reconnect. *)
Definition onlyRetries (l : list Continuation) : bool :=
  forallb (fun k => match k with thenRetry _ => true | _ => false end) l.

(** A timer firing or a suspended callback resuming. *)
Definition timerAction (a : Action) : bool :=
  match a with
  | Fire _ _ => true
  | Resume _ => true
  | _ => false
  end.

(** The timer of retry [k], scheduled with base [b], cap [c] and jitter
    off. *)
Definition retryTimerOf (b c : Z) (live : bool) (k : nat) : Timer :=
  {| base := Some b; attempt := Z.of_nat k; cap := Some c;
     useJitter := Some false; pending := live |}.

(** A session in the middle of a retry chain of [n] retries, [k] of them
    done, that started from [w0]. *)
Record Retrying (w0 : World) (n : nat) (b c : Z) (k : nat) (w : World)
  : Prop := {
  retrying_status : connectionStatus w = CONNECTING;
  retrying_count : currentRetryCount w = k;
  retrying_options : options w = Some (retryOptions (Z.of_nat n) b c);
  retrying_intercepter : onReconnectIntercepter w = None;
  retrying_awaiting : awaiting w = [];
  retrying_native :
    native w
    = native w0 ++ repeat (connectMqtt (clientId w0) 60%Z "" "" true) (S k);
  retrying_timers :
    timers w
    = map (retryTimerOf b c false) (seq 0 k)
      ++ (if (k <? n)%nat then [retryTimerOf b c true k] else []);
  retrying_handle : k < n -> retryTimer w = Some k;
  retrying_clientId : clientId w = clientId w0
}.

(** The pending timer, if the handle the session holds is one. *)
Definition heldTimer (w : World) : list Timer :=
  match retryTimer w with
  | Some h =>
      match nth_error (timers w) h with
      | Some t => if pending t then [t] else []
      | None => []
      end
  | None => []
  end.

(** A session that was connecting with retries and was disconnected. *)
Definition disconnectedSession : World :=
  disconnect
    (connect None
       (constructor events [] "c1" "broker" 1883%Z
                    (Some (retryOptions 3 100 10000)))).

(** A session that is connecting with retries. *)
Definition connectingSession : World :=
  connect None
    (constructor events [] "c1" "broker" 1883%Z
                 (Some (retryOptions 3 100 10000))).

(** A listener other than the two the constructor registers. *)
Definition userHandler (h : Handler) : bool :=
  match h with
  | connectedHandler => false
  | tryCatch _ autoReconnectHandler => false
  | _ => true
  end.

(** Every registration of the emitter is a [userHandler]. *)
Definition onlyUserHandlers (e : EventEmitter.t) : bool :=
  forallb (fun kh => userHandler (snd kh)) (EventEmitter.registrations e).

(** The reason code a session holds after a disconnect event found it in
    state [w] with the listeners [l]: the event's code when the
    auto-reconnect listener is among them and the session is not
    CONNECTED, the old one otherwise. *)
Definition storedAfter (w : World) (l : list Handler) (ack : Ack)
  : option Mqtt5ReasonCode :=
  match connectionStatus w with
  | CONNECTED => mqtt5DisconnectReasonCode w
  | _ =>
      if existsb (fun h => match h with
                           | tryCatch _ autoReconnectHandler => true
                           | _ => false
                           end) l
      then reasonCode ack
      else mqtt5DisconnectReasonCode w
  end.

(** * Proofs *)

(** ** Merging *)

Lemma wins_spread {T} (old new : field T) : wins old new (spread old new).
Proof. destruct new; reflexivity. Qed.

Lemma resetOptions_mergedInto (o : option MqttOptions) (w : World) :
  mergedInto (options w) o (options (resetOptions o w)).
Proof.
  destruct o as [new|]; [|reflexivity].
  eexists; split; [reflexivity|].
  unfold shallowMerge, spreadOptions; cbn [keepAlive username password
    cleanSession autoReconnect retryCount backoffTime maxBackoffTime jitter
    enableSslConfig].
  repeat split; apply wins_spread.
Qed.

(** ** Timers *)

Lemma isPending_cancel (l : list Timer) (h i : nat) :
  isPending (cancel h l) i -> isPending l i /\ i <> h.
Proof.
  revert h i; induction l as [|t l IH]; intros h i [x [Hn Hp]].
  - destruct h, i; discriminate.
  - destruct h as [|h], i as [|i]; simpl in Hn.
    + injection Hn as <-; discriminate.
    + split; [exists x; auto | discriminate].
    + split; [exists x; auto | discriminate].
    + destruct (IH h i) as [[y [Hy Hq]] Hne]; [exists x; auto|].
      split; [exists y; auto | congruence].
Qed.

Lemma isPending_app (l : list Timer) (t : Timer) (i : nat) :
  isPending (l ++ [t]) i -> isPending l i \/ i = List.length l.
Proof.
  intros [x [Hn Hp]].
  destruct (Nat.lt_ge_cases i (List.length l)) as [Hlt|Hge].
  - left; exists x; split; auto.
    now rewrite nth_error_app1 in Hn.
  - right. apply Nat.le_antisymm; auto.
    assert (i < List.length (l ++ [t])) as H
      by (apply nth_error_Some; congruence).
    rewrite length_app in H; simpl in H; lia.
Qed.

Lemma pendingTimers_none (l : list Timer) :
  (forall h, ~ isPending l h) -> pendingTimers l = [].
Proof.
  induction l as [|t l IH]; intros H; [reflexivity|].
  unfold pendingTimers in *; simpl.
  destruct (pending t) eqn:E.
  - exfalso; apply (H 0); exists t; auto.
  - apply IH; intros h [x [Hn Hp]]; apply (H (S h)); exists x; auto.
Qed.


Lemma cancel_length (l : list Timer) (h : nat) :
  List.length (cancel h l) = List.length l.
Proof.
  revert h; induction l as [|t l IH]; intros [|h]; simpl; auto.
Qed.

(** ** The emitter *)

Module EventEmitterFacts.
Import EventEmitter.

Lemma registrations_app (e1 e2 : t) :
  registrations (e1 ++ e2) = registrations e1 ++ registrations e2.
Proof.
  induction e1 as [|[kh|] e1 IH]; simpl; auto.
  now rewrite IH.
Qed.

Lemma registrations_nth (e : t) (kh : string * Handler) :
  In kh (registrations e) <-> exists i, nth_error e i = Some (Some kh).
Proof.
  induction e as [|[x|] e IH]; simpl.
  - split; [tauto | intros [[|i] H]; discriminate].
  - split.
    + intros [->|H]; [now exists 0|].
      apply IH in H as [i H]; now exists (S i).
    + intros [[|i] H]; simpl in H; [left; congruence|].
      right; apply IH; now exists i.
  - rewrite IH; split; intros [i H].
    + now exists (S i).
    + destruct i; [discriminate | now exists i].
Qed.

Lemma remove_nth_same (e : t) (token : nat) :
  token < List.length e -> nth_error (remove token e) token = Some None.
Proof.
  revert token; induction e as [|x e IH]; intros [|n] H; simpl in *;
    try lia; auto.
  apply IH; lia.
Qed.

Lemma remove_nth_other (e : t) (token i : nat) :
  i <> token -> nth_error (remove token e) i = nth_error e i.
Proof.
  revert token i; induction e as [|x e IH]; intros [|n] [|i] H; simpl;
    auto; try congruence.
Qed.

Lemma remove_length (e : t) (token : nat) :
  List.length (remove token e) = List.length e.
Proof.
  revert token; induction e as [|x e IH]; intros [|n]; simpl; auto.
Qed.

Lemma remove_registrations (e : t) (token : nat) kh :
  In kh (registrations (remove token e)) -> In kh (registrations e).
Proof.
  rewrite !registrations_nth; intros [i H].
  destruct (Nat.eq_dec i token) as [->|Hne].
  - destruct (Nat.lt_ge_cases token (List.length e)) as [Hlt|Hge].
    + rewrite remove_nth_same in H by auto; discriminate.
    + assert (nth_error (remove token e) token = None) as E
        by (apply nth_error_None; now rewrite remove_length).
      congruence.
  - rewrite remove_nth_other in H by auto; now exists i.
Qed.

Lemma removeAll_registrations (e : t) (eventId : string) kh :
  In kh (registrations (removeAllListeners eventId e)) <->
  In kh (registrations e) /\ fst kh <> eventId.
Proof.
  induction e as [|[[k h]|] e IH]; simpl; [tauto| |exact IH].
  destruct (String.eqb_spec k eventId) as [->|Hne]; simpl.
  - rewrite IH; split.
    + intros [H1 H2]; auto.
    + intros [[<-|H1] H2]; [now simpl in H2 | auto].
  - rewrite IH; split.
    + intros [<-|[H1 H2]]; auto.
    + intros [[<-|H1] H2]; auto.
Qed.

Lemma listeners_registrations (e : t) (eventId : string) (h : Handler) :
  In h (listeners eventId e) <-> In (eventId, h) (registrations e).
Proof.
  induction e as [|[[k x]|] e IH]; simpl; [tauto| |exact IH].
  destruct (String.eqb_spec k eventId) as [->|Hne]; simpl.
  - rewrite IH; split; intros [H|H]; auto; left; congruence.
  - rewrite IH; split; [auto | intros [H|H]; [congruence | auto]].
Qed.

Lemma listeners_removeAll (e : t) (eventId : string) :
  listeners eventId (removeAllListeners eventId e) = [].
Proof.
  induction e as [|[[k h]|] e IH]; simpl; auto.
  destruct (String.eqb_spec k eventId) as [->|Hne]; simpl; auto.
  destruct (String.eqb_spec k eventId); [contradiction | auto].
Qed.

Lemma listeners_removeAll_other (e : t) (eventId other : string) :
  other <> eventId ->
  listeners other (removeAllListeners eventId e) = listeners other e.
Proof.
  intros Hne; induction e as [|[[k h]|] e IH]; simpl; auto.
  destruct (String.eqb_spec k eventId) as [->|Hk]; simpl.
  - destruct (String.eqb_spec eventId other); [congruence | auto].
  - now rewrite IH.
Qed.

End EventEmitterFacts.

(** ** The invariant is kept by every action *)

Section Invariant.

Variable EV : MQTT_EVENTS.

Lemma forallb_snoc {A} (f : A -> bool) (l : list A) (x : A) :
  forallb f (l ++ [x]) = forallb f l && f x.
Proof.
  rewrite forallb_app; simpl; now rewrite andb_true_r.
Qed.

Lemma askIntercepter_frame (w : World) :
  let w' := snd (askIntercepter w) in
  clientId w' = clientId w /\ options w' = options w /\
  retryTimer w' = retryTimer w /\
  currentRetryCount w' = currentRetryCount w /\
  mqtt5DisconnectReasonCode w' = mqtt5DisconnectReasonCode w /\
  connectionStatus w' = connectionStatus w /\
  eventEmitter w' = eventEmitter w /\ timers w' = timers w /\
  native w' = native w /\ awaiting w' = awaiting w /\ tag w' = tag w.
Proof.
  unfold askIntercepter; destruct (onReconnectIntercepter w); simpl;
    repeat split.
Qed.

Lemma Inv_askIntercepter (w : World) :
  Inv EV w -> Inv EV (snd (askIntercepter w)).
Proof.
  intros [H1 H2 H3 H4].
  unfold askIntercepter; destruct (onReconnectIntercepter w); simpl;
    constructor; auto.
Qed.

Lemma Inv_suspend (k : Continuation) (w : World) :
  Inv EV w -> Inv EV (suspend k w).
Proof. intros [H1 H2 H3 H4]; constructor; auto. Qed.

Lemma Inv_intercept (c : Interceptor) (ack : Ack) (w : World) :
  Inv EV w -> Inv EV (fst (intercept c ack w)).
Proof.
  intros H; pose proof H as [H1 H2 H3 H4].
  destruct c; unfold intercept.
  - destruct (connectionStatus w) eqn:E; simpl.
    + pose proof (Inv_askIntercepter w H) as H'.
      destruct (askIntercepter w) as [o w']; now apply Inv_suspend.
    + constructor; simpl; auto; congruence.
    + constructor; simpl; auto; congruence.
  - destruct (CONNECTION_STATE_eqb _ _); [constructor|]; auto.
  - destruct (negb _); [constructor|]; auto.
Qed.

Lemma Inv_handle (h : Handler) (ack : Ack) (w : World) :
  Inv EV w -> Inv EV (handle h ack w).
Proof.
  intros H; pose proof H as [H1 H2 H3 H4].
  destruct h; unfold handle; try (constructor; auto; fail).
  pose proof (Inv_intercept callback ack w H) as H'.
  destruct (intercept callback ack w) as [w1 [|]]; auto.
  now apply Inv_intercept.
Qed.

Lemma Inv_handlers (l : list Handler) (ack : Ack) (w : World) :
  Inv EV w -> Inv EV (fold_left (fun w h => handle h ack w) l w).
Proof.
  revert w; induction l as [|h l IH]; intros w H; simpl; auto.
  apply IH, Inv_handle, H.
Qed.

Lemma Inv_emit (eventId : string) (ack : Ack) (w : World) :
  Inv EV w -> Inv EV (emit eventId ack w).
Proof. apply Inv_handlers. Qed.

Lemma Inv_resetOptions (o : option MqttOptions) (w : World) :
  Inv EV w -> Inv EV (resetOptions o w).
Proof.
  intros [H1 H2 H3 H4]; destruct o; simpl; constructor; auto.
Qed.

Lemma Inv_clearTimeout (w : World) :
  Inv EV w ->
  Inv EV (clearTimeout (retryTimer w) w) /\
  forall h, ~ isPending (timers (clearTimeout (retryTimer w) w)) h.
Proof.
  intros [H1 H2 H3 H4]; unfold clearTimeout.
  destruct (retryTimer w) as [r|] eqn:E.
  - split.
    + constructor; simpl; auto.
      intros h Hp; apply isPending_cancel in Hp as [Hp _].
      rewrite E; auto.
    + simpl; intros h Hp; apply isPending_cancel in Hp as [Hp Hne].
      apply H2 in Hp; congruence.
  - split; [constructor; auto; intros h Hp; rewrite E; auto|].
    intros h Hp; apply H2 in Hp; congruence.
Qed.

Lemma Inv_connection (w : World) : Inv EV w -> Inv EV (connection w).
Proof.
  intros H; unfold connection.
  destruct (negb _) eqn:Es; auto.
  apply negb_false_iff in Es.
  set (w1 := invoke _ w).
  assert (Inv EV w1) as H1.
  { destruct H as [H1 H2 H3 H4]; constructor; auto.
    simpl; rewrite forallb_snoc, H4; simpl.
    destruct (opt (options w) cleanSession) as [[|]|]; reflexivity. }
  destruct (Inv_clearTimeout w1 H1) as [H2 Hnone].
  set (w2 := clearTimeout (retryTimer w1) w1) in *.
  destruct (opt (options w2) retryCount) as [n|]; auto.
  destruct (truthy_num n && _)%bool; auto.
  destruct H2 as [A B C D]; constructor; simpl; auto.
  intros h Hp; apply isPending_app in Hp as [Hp| ->]; auto.
  now apply Hnone in Hp.
Qed.

(** [connection] touches the native layer, the timers and the timer
    handle, and nothing else. *)
Lemma connection_frame (w : World) :
  let w' := connection w in
  clientId w' = clientId w /\ options w' = options w /\
  currentRetryCount w' = currentRetryCount w /\
  mqtt5DisconnectReasonCode w' = mqtt5DisconnectReasonCode w /\
  connectionStatus w' = connectionStatus w /\
  eventEmitter w' = eventEmitter w /\ awaiting w' = awaiting w /\
  calls w' = calls w /\ tag w' = tag w /\
  onReconnectIntercepter w' = onReconnectIntercepter w.
Proof.
  unfold connection.
  destruct (negb _); [repeat split|].
  destruct (retryTimer _) as [r|]; simpl;
    (destruct (opt (options w) retryCount) as [n|];
     [destruct (truthy_num n && _)%bool|]; repeat split).
Qed.

Lemma resetOptions_frame (o : option MqttOptions) (w : World) :
  let w' := resetOptions o w in
  clientId w' = clientId w /\ retryTimer w' = retryTimer w /\
  currentRetryCount w' = currentRetryCount w /\
  mqtt5DisconnectReasonCode w' = mqtt5DisconnectReasonCode w /\
  connectionStatus w' = connectionStatus w /\
  eventEmitter w' = eventEmitter w /\ awaiting w' = awaiting w /\
  calls w' = calls w /\ tag w' = tag w /\ timers w' = timers w /\
  native w' = native w /\
  onReconnectIntercepter w' = onReconnectIntercepter w.
Proof. destruct o; repeat split. Qed.

Lemma connect_status (o : option MqttOptions) (w : World) :
  connectionStatus (connect o w) = CONNECTING.
Proof.
  unfold connect.
  destruct (connection_frame (resetOptions o (resetConnectVariables w)))
    as (_ & _ & _ & _ & -> & _).
  destruct (resetOptions_frame o (resetConnectVariables w))
    as (_ & _ & _ & _ & -> & _).
  reflexivity.
Qed.

Lemma Inv_connect (o : option MqttOptions) (w : World) :
  Inv EV w -> Inv EV (connect o w).
Proof.
  intros [H1 H2 H3 H4]; unfold connect.
  apply Inv_connection, Inv_resetOptions.
  constructor; simpl; auto; discriminate.
Qed.

Lemma Inv_continue (k : Continuation) (w : World) :
  Inv EV w -> Inv EV (continue k w).
Proof.
  intros H; destruct k as [o code|o]; simpl.
  - pose proof (Inv_connect o w H) as [H1 H2 H3 H4].
    constructor; simpl; auto.
    rewrite connect_status; discriminate.
  - apply Inv_connection, Inv_resetOptions, H.
Qed.

Lemma Inv_addListener (k : string) (h : Handler) (w : World) :
  Inv EV w ->
  (h = connectedHandler -> k = (clientId w ++ CONNECTED_EVENT EV)%string) ->
  Inv EV (snd (addListener k h w)).
Proof.
  intros [H1 H2 H3 H4] Hk; constructor; simpl; auto.
  intros k' Hin.
  rewrite EventEmitterFacts.registrations_app in Hin.
  apply in_app_or in Hin as [Hin|[Heq|[]]]; auto.
  injection Heq as -> ->; auto.
Qed.

Lemma addListener_clientId (k : string) (h : Handler) (w : World) :
  clientId (snd (addListener k h w)) = clientId w.
Proof. reflexivity. Qed.

Lemma Inv_subscribe (topic : string) (qos : option MqttQos)
      (onEvent : Callback) (onSuccess onError : option Callback)
      (w : World) :
  Inv EV w ->
  Inv EV (snd (subscribe EV topic qos onEvent onSuccess onError w)).
Proof.
  intros [H1 H2 H3 H4].
  unfold subscribe, getMqttSubscribeEventId.
  set (id := (_ ++ _)%string).
  set (w1 := invoke _ _).
  assert (Inv EV w1) as I1.
  { constructor; simpl; auto.
    now rewrite forallb_snoc, H4. }
  pose proof (Inv_addListener id (subscriptionListener onEvent) w1 I1) as I2.
  destruct (addListener id _ w1) as [l w2]; simpl in I2.
  pose proof (Inv_addListener (id ++ SUBSCRIPTION_SUCCESS_EVENT EV)
                (subscriptionSuccess onSuccess) w2) as I3.
  destruct (addListener _ _ w2) as [s w3]; simpl in I3.
  pose proof (Inv_addListener (id ++ SUBSCRIPTION_FAILED_EVENT EV)
                (subscriptionFailed onError) w3) as I4.
  destruct (addListener _ _ w3) as [f w4]; simpl in *.
  apply I4; [apply I3; [apply I2|]|]; discriminate.
Qed.

Lemma Inv_removeListener (token : nat) (w : World) :
  Inv EV w -> Inv EV (removeListener token w).
Proof.
  intros [H1 H2 H3 H4]; constructor; simpl; auto.
  intros k Hin; apply EventEmitterFacts.remove_registrations in Hin; auto.
Qed.

Lemma Inv_removeSubscription (s : Subscription) (w : World) :
  Inv EV w -> Inv EV (removeSubscription s w).
Proof.
  intros H; unfold removeSubscription.
  now repeat apply Inv_removeListener.
Qed.

Lemma Inv_remove (w : World) : Inv EV w -> Inv EV (remove EV w).
Proof.
  intros [H1 H2 H3 H4]; constructor; simpl; auto.
  - intros k Hin.
    apply EventEmitterFacts.removeAll_registrations in Hin as [Hin _].
    apply EventEmitterFacts.removeAll_registrations in Hin as [Hin _].
    auto.
  - now rewrite forallb_snoc, H4.
Qed.

Lemma Inv_disconnect (w : World) : Inv EV w -> Inv EV (disconnect w).
Proof.
  intros [H1 H2 H3 H4]; constructor; simpl; auto; try discriminate.
  now rewrite forallb_snoc, H4.
Qed.

Lemma Inv_fire (h : nat) (status : CONNECTION_STATE) (w : World) :
  Inv EV w -> Inv EV (fire h status w).
Proof.
  intros H; unfold fire.
  destruct (nth_error (timers w) h) as [t|]; auto.
  destruct (pending t); auto.
  unfold retryCallback.
  set (w1 := set_currentRetryCount _ _).
  assert (Inv EV w1) as I1.
  { destruct H as [H1 H2 H3 H4]; constructor; simpl; auto.
    intros i Hp; apply isPending_cancel in Hp as [Hp _]; auto. }
  destruct (negb _); auto.
  pose proof (Inv_askIntercepter w1 I1) as I2.
  destruct (askIntercepter w1) as [o w2]; now apply Inv_suspend.
Qed.

Lemma Inv_resume (n : nat) (w : World) :
  Inv EV w -> Inv EV (resume n w).
Proof.
  intros H; unfold resume.
  destruct (nth_error (awaiting w) n) as [k|]; auto.
  apply Inv_continue.
  destruct H as [H1 H2 H3 H4]; constructor; auto.
Qed.

Lemma Inv_step (a : Action) (w : World) :
  Inv EV w -> Inv EV (step EV w a).
Proof.
  intros H; destruct a; simpl.
  - now apply Inv_connect.
  - now apply Inv_disconnect.
  - now apply Inv_remove.
  - now apply Inv_subscribe.
  - now apply Inv_removeSubscription.
  - destruct H as [H1 H2 H3 H4]; constructor; auto.
  - apply Inv_addListener; [auto | discriminate].
  - apply Inv_addListener; [auto | discriminate].
  - apply Inv_addListener; [auto | discriminate].
  - now apply Inv_removeListener.
  - now apply Inv_emit.
  - now apply Inv_fire.
  - now apply Inv_resume.
Qed.

Lemma Inv_run (l : list Action) (w : World) :
  Inv EV w -> Inv EV (run EV l w).
Proof.
  revert w; induction l as [|a l IH]; intros w H; simpl; auto.
  apply IH, Inv_step, H.
Qed.

Lemma Inv_constructor (clientId host : string) (port : Z)
      (options : option MqttOptions) :
  Inv EV (constructor EV [] clientId host port options).
Proof.
  unfold constructor.
  destruct (negb (truthy_str host)).
  - constructor; simpl; auto; try discriminate.
    + intros h [t [Hn _]]; destruct h; discriminate.
    + intros k [].
  - set (w1 := invoke _ _).
    assert (Inv EV w1) as I1.
    { constructor; simpl; auto; try discriminate.
      + intros h [t [Hn _]]; destruct h; discriminate.
      + intros k []. }
    assert (Inv EV (snd (setOnConnectCallback EV connectedHandler w1)))
      as I2 by (apply Inv_addListener; auto).
    destruct (or truthy_bool _ false); auto.
    apply Inv_addListener; [auto | discriminate].
Qed.

Lemma Inv_reachable (w : World) : reachable EV w -> Inv EV w.
Proof.
  intros (c & h & p & o & l & ->).
  apply Inv_run, Inv_constructor.
Qed.

Lemma run_app (l1 l2 : list Action) (w : World) :
  run EV (l1 ++ l2) w = run EV l2 (run EV l1 w).
Proof. apply fold_left_app. Qed.

Lemma reachable_step (a : Action) (w : World) :
  reachable EV w -> reachable EV (step EV w a).
Proof.
  intros (c & h & p & o & l & ->).
  exists c, h, p, o, (l ++ [a]); now rewrite run_app.
Qed.

End Invariant.

(** ** Construction *)

(** C9.  Constructing a client with the empty host string returns after
    the field initialisers: nothing is asked of the native layer (so no
    [createMqtt]), the emitter is left as it was (no listener is
    registered), no timer or callback is pending, and the constructor ends
    normally, as it does on every input. *)
Theorem constructor_empty_host_is_noop :
  forall (EV : MQTT_EVENTS) (e : EventEmitter.t) (clientId : string)
         (port : Z) (options : option MqttOptions),
    let w := constructor EV e clientId "" port options in
    w = fresh e clientId "" port options /\
    native w = [] /\
    eventEmitter w = e /\
    timers w = [] /\ awaiting w = [] /\ calls w = [] /\
    connectionStatus w = DISCONNECTED.
Proof.
  intros; subst w; unfold constructor; simpl.
  repeat split.
Qed.

(** With a host given the session is created and the connected handler is
    registered. *)
Lemma constructor_with_host (EV : MQTT_EVENTS) (clientId host : string)
      (port : Z) (options : option MqttOptions) :
  host <> "" ->
  let w := constructor EV [] clientId host port options in
  hd_error (native w)
  = Some (createMqtt clientId host port
                     (nullish (opt options enableSslConfig) false)) /\
  hd_error (eventEmitter w)
  = Some (Some ((clientId ++ CONNECTED_EVENT EV)%string, connectedHandler)).
Proof.
  intros Hh; unfold constructor.
  destruct (String.eqb_spec host "") as [|_]; [contradiction|].
  unfold truthy_str.
  destruct (String.eqb_spec host "") as [|_]; [contradiction|]; simpl.
  destruct (or truthy_bool _ false); split; reflexivity.
Qed.

(** ** Connecting *)

Lemma or_true (a : option bool) : or truthy_bool a true = true.
Proof. destruct a as [[|]|]; reflexivity. Qed.

Lemma connection_native (w : World) :
  connectionStatus w = CONNECTING ->
  native (connection w)
  = native w
    ++ [connectMqtt (clientId w)
          (or truthy_num (opt (options w) keepAlive) 60%Z)
          (or truthy_str (opt (options w) username) "")
          (or truthy_str (opt (options w) password) "")
          true].
Proof.
  intros Hs; unfold connection; rewrite Hs; simpl.
  rewrite or_true.
  destruct (retryTimer w) as [r|]; simpl;
    (destruct (opt (options w) retryCount) as [n|];
     [destruct (truthy_num n && _)%bool|]; reflexivity).
Qed.

Lemma connection_idle (w : World) :
  connectionStatus w <> CONNECTING -> connection w = w.
Proof.
  intros Hs; unfold connection.
  destruct (connectionStatus w); try reflexivity; contradiction.
Qed.




Lemma connect_frame (o : option MqttOptions) (w : World) :
  let w' := connect o w in
  clientId w' = clientId w /\
  options w' = options (resetOptions o w) /\
  currentRetryCount w' = 0 /\
  connectionStatus w' = CONNECTING /\
  mqtt5DisconnectReasonCode w' = mqtt5DisconnectReasonCode w /\
  eventEmitter w' = eventEmitter w /\
  native w'
  = native w
    ++ [connectMqtt (clientId w)
          (or truthy_num (opt (options (resetOptions o w)) keepAlive) 60%Z)
          (or truthy_str (opt (options (resetOptions o w)) username) "")
          (or truthy_str (opt (options (resetOptions o w)) password) "")
          true].
Proof.
  unfold connect.
  set (w1 := resetOptions o (resetConnectVariables w)).
  assert (connectionStatus w1 = CONNECTING) as Hs
    by (subst w1; destruct o; reflexivity).
  destruct (connection_frame w1) as (E1 & E2 & E3 & E4 & E5 & E6 & _).
  simpl; rewrite E1, E2, E3, E4, E5, E6, (connection_native w1 Hs).
  subst w1; destruct o; repeat split.
Qed.

(** A callback of [onDisconnectInterceptor] writes the call log, the
    suspended callbacks and the stored reason code, nothing else, and the
    stored reason code only while the session is not CONNECTED. *)
Lemma intercept_frame (c : Interceptor) (ack : Ack) (w : World) :
  let w' := fst (intercept c ack w) in
  clientId w' = clientId w /\ timers w' = timers w /\
  retryTimer w' = retryTimer w /\ native w' = native w /\
  eventEmitter w' = eventEmitter w /\ options w' = options w /\
  tag w' = tag w /\
  onReconnectIntercepter w' = onReconnectIntercepter w /\
  connectionStatus w' = connectionStatus w /\
  currentRetryCount w' = currentRetryCount w /\
  (connectionStatus w = CONNECTED ->
   mqtt5DisconnectReasonCode w' = mqtt5DisconnectReasonCode w).
Proof.
  destruct c; unfold intercept.
  - destruct (connectionStatus w) eqn:Es; simpl;
      [unfold askIntercepter;
       destruct (onReconnectIntercepter w) eqn:Ei; simpl| |];
      repeat split; auto; discriminate.
  - destruct (CONNECTION_STATE_eqb _ _); repeat split.
  - destruct (negb _); repeat split.
Qed.

(** The same for the listener built around it. *)
Lemma tryCatch_frame (d : Mqtt5ReasonCode) (c : Interceptor) (ack : Ack)
      (w : World) :
  let w' := handle (tryCatch d c) ack w in
  clientId w' = clientId w /\ timers w' = timers w /\
  retryTimer w' = retryTimer w /\ native w' = native w /\
  eventEmitter w' = eventEmitter w /\ options w' = options w /\
  tag w' = tag w /\
  onReconnectIntercepter w' = onReconnectIntercepter w /\
  connectionStatus w' = connectionStatus w /\
  currentRetryCount w' = currentRetryCount w /\
  (connectionStatus w = CONNECTED ->
   mqtt5DisconnectReasonCode w' = mqtt5DisconnectReasonCode w).
Proof.
  cbn [handle].
  pose proof (intercept_frame c ack w) as F.
  destruct (intercept c ack w) as [w1 [|]]; [|exact F].
  pose proof (intercept_frame c {| reasonCode := Some d; body := "" |} w1)
    as G.
  cbn [fst] in *.
  destruct F as (F1 & F2 & F3 & F4 & F5 & F6 & F7 & F8 & F9 & F10 & F11).
  destruct G as (G1 & G2 & G3 & G4 & G5 & G6 & G7 & G8 & G9 & G10 & G11).
  repeat split; try congruence.
  intros Hs; rewrite G11, F11; congruence.
Qed.

(** The client identifier never changes. *)
Lemma handlers_clientId (l : list Handler) (ack : Ack) (w : World) :
  clientId (fold_left (fun w h => handle h ack w) l w) = clientId w.
Proof.
  revert w; induction l as [|h l IH]; intros w; simpl fold_left; auto.
  rewrite IH; destruct h; try reflexivity.
  apply tryCatch_frame.
Qed.

Lemma continue_clientId (k : Continuation) (w : World) :
  clientId (continue k w) = clientId w.
Proof.
  destruct k as [o c|o]; simpl.
  - now destruct (connect_frame o w) as (-> & _).
  - destruct (connection_frame (resetOptions o w)) as (-> & _).
    now destruct o.
Qed.

Lemma step_clientId (EV : MQTT_EVENTS) (a : Action) (w : World) :
  clientId (step EV w a) = clientId w.
Proof.
  destruct a as [o| | | | | | | | | | |h status|n]; simpl; auto.
  - now destruct (connect_frame o w) as (-> & _).
  - apply handlers_clientId.
  - unfold fire.
    destruct (nth_error (timers w) h) as [t|]; auto.
    destruct (pending t); auto.
    unfold retryCallback; destruct (negb _); auto.
    match goal with
    | |- context [askIntercepter ?x] =>
        destruct (askIntercepter_frame x) as (E & _);
        destruct (askIntercepter x); simpl in *; auto
    end.
  - unfold resume.
    destruct (nth_error (awaiting w) n) as [k|]; auto.
    now rewrite continue_clientId.
Qed.

Lemma run_clientId (EV : MQTT_EVENTS) (l : list Action) (w : World) :
  clientId (run EV l w) = clientId w.
Proof.
  revert w; induction l as [|a l IH]; intros w; simpl; auto.
  now rewrite IH, step_clientId.
Qed.

Lemma constructor_clientId (EV : MQTT_EVENTS) (e : EventEmitter.t)
      (clientId0 host : string) (port : Z) (options : option MqttOptions) :
  clientId (constructor EV e clientId0 host port options) = clientId0.
Proof.
  unfold constructor; destruct (negb _); auto.
  destruct (or truthy_bool _ false); reflexivity.
Qed.

(** C10.  In every session, whatever its options and whatever has
    happened to it, each [connectMqtt] the native layer has received
    carries [cleanSession = true]; and [connect], with any override (one
    that sets [cleanSession] to [false] included), passes [true] again,
    since [false || true] is [true]. *)
Theorem connectMqtt_cleanSession_always_true :
  forall (EV : MQTT_EVENTS) (l : list Action) (clientId host : string)
         (port : Z) (configured override : option MqttOptions),
    let w := run EV l (constructor EV [] clientId host port configured) in
    forallb cleanSessionSent (native w) = true /\
    or truthy_bool (opt (options (resetOptions override w)) cleanSession) true
    = true /\
    exists keepAlive username password,
      native (connect override w)
      = native w ++ [connectMqtt clientId keepAlive username password true].
Proof.
  intros; split; [|split].
  - apply (inv_clean EV), Inv_run, Inv_constructor.
  - apply or_true.
  - destruct (connect_frame override w) as (_ & _ & _ & _ & _ & _ & ->).
    subst w; rewrite run_clientId, constructor_clientId; eauto.
Qed.

(** The flag sent when the option says [false]. *)
Example cleanSession_false_is_sent_true :
  native
    (connect
       (Some {| keepAlive := Val 30%Z; username := Absent;
                password := Absent; cleanSession := Val false;
                autoReconnect := Absent; retryCount := Absent;
                backoffTime := Absent; maxBackoffTime := Absent;
                jitter := Absent; enableSslConfig := Absent |})
       (constructor events [] "c1" "broker" 1883%Z None))
  = [createMqtt "c1" "broker" 1883%Z false;
     connectMqtt "c1" 30%Z "" "" true].
Proof. reflexivity. Qed.




(** ** Events *)

(** A listener leaves the timers, the native layer and the emitter alone. *)
Lemma handle_frame (h : Handler) (ack : Ack) (w : World) :
  let w' := handle h ack w in
  timers w' = timers w /\ retryTimer w' = retryTimer w /\
  native w' = native w /\ eventEmitter w' = eventEmitter w /\
  options w' = options w /\ tag w' = tag w /\
  onReconnectIntercepter w' = onReconnectIntercepter w.
Proof.
  destruct h; try (repeat split; fail).
  destruct (tryCatch_frame fallback callback ack w)
    as (_ & A & B & C & D & E & F & G & _).
  repeat split; auto.
Qed.

Lemma handlers_frame (l : list Handler) (ack : Ack) (w : World) :
  let w' := fold_left (fun w h => handle h ack w) l w in
  timers w' = timers w /\ retryTimer w' = retryTimer w /\
  native w' = native w /\ eventEmitter w' = eventEmitter w /\
  options w' = options w /\ tag w' = tag w /\
  onReconnectIntercepter w' = onReconnectIntercepter w.
Proof.
  revert w; induction l as [|h l IH]; intros w; simpl; [repeat split|].
  destruct (IH (handle h ack w)) as (A & B & C & D & E & F & G).
  destruct (handle_frame h ack w) as (A' & B' & C' & D' & E' & F' & G').
  simpl in *; repeat split; congruence.
Qed.

Lemma handle_keeps_confirmed (h : Handler) (ack : Ack) (w : World) :
  confirmed w -> confirmed (handle h ack w).
Proof.
  intros (A & B & C); destruct h; try (repeat split; auto; fail).
  destruct (tryCatch_frame fallback callback ack w)
    as (_ & _ & _ & _ & _ & _ & _ & _ & S & K & R).
  unfold confirmed; rewrite S, K, (R B); auto.
Qed.

Lemma handlers_keep_confirmed (l : list Handler) (ack : Ack) (w : World) :
  confirmed w -> confirmed (fold_left (fun w h => handle h ack w) l w).
Proof.
  revert w; induction l as [|h l IH]; intros w H; simpl; auto.
  apply IH, handle_keeps_confirmed, H.
Qed.

Lemma handlers_confirm (l : list Handler) (ack : Ack) (w : World) :
  In connectedHandler l ->
  confirmed (fold_left (fun w h => handle h ack w) l w).
Proof.
  revert w; induction l as [|h l IH]; intros w Hin; [destruct Hin|].
  destruct Hin as [->|Hin]; simpl.
  - apply handlers_keep_confirmed; repeat split.
  - now apply IH.
Qed.

(** A timer that fires while the native layer says it is connected: its
    callback stops before asking anything. *)
Lemma fire_when_connected (h : nat) (w : World) :
  let w' := fire h CONNECTED w in
  native w' = native w /\ awaiting w' = awaiting w /\
  calls w' = calls w /\
  List.length (timers w') = List.length (timers w) /\
  pendingTimers (skipn (List.length (timers w)) (timers w')) = [] /\
  connectionStatus w' = connectionStatus w.
Proof.
  unfold fire.
  destruct (nth_error (timers w) h) as [t|];
    [destruct (pending t)|]; simpl;
    rewrite ?cancel_length, ?skipn_all2 by (rewrite ?cancel_length; lia);
    repeat split.
Qed.

(** C4, as the code has it.  When the session's connected handler is
    registered, after a CONNECTED event has been delivered to every
    listener [currentRetryCount] is 0, the status is CONNECTED and the
    stored reason code is cleared; the timers are exactly as they were, so
    a retry scheduled by [connect] stays pending.  When a timer fires
    later while the native layer reports CONNECTED, nothing is asked of the
    native layer or of the interceptor and no timer is added. *)
Theorem connected_event_resets_count_keeps_timer :
  forall (EV : MQTT_EVENTS) (w : World) (ack : Ack),
    In connectedHandler
       (EventEmitter.listeners (clientId w ++ CONNECTED_EVENT EV)%string
                               (eventEmitter w)) ->
    let w' := emit (clientId w ++ CONNECTED_EVENT EV)%string ack w in
    currentRetryCount w' = 0 /\
    connectionStatus w' = CONNECTED /\
    mqtt5DisconnectReasonCode w' = None /\
    timers w' = timers w /\
    retryTimer w' = retryTimer w /\
    native w' = native w /\
    forall h : nat,
      let w'' := fire h CONNECTED w' in
      native w'' = native w' /\ awaiting w'' = awaiting w' /\
      calls w'' = calls w' /\
      List.length (timers w'') = List.length (timers w') /\
      connectionStatus w'' = CONNECTED.
Proof.
  intros EV w ack Hin w'.
  destruct (handlers_confirm _ ack w Hin) as (A & B & C).
  destruct (handlers_frame
              (EventEmitter.listeners (clientId w ++ CONNECTED_EVENT EV)%string
                                      (eventEmitter w)) ack w)
    as (D & E & F & _).
  fold (emit (clientId w ++ CONNECTED_EVENT EV)%string ack w) in A, B, C, D, E, F.
  fold w' in A, B, C, D, E, F.
  repeat split; auto;
    destruct (fire_when_connected h w') as (G1 & G2 & G3 & G4 & _ & G6);
    auto; congruence.
Qed.

Lemma connected_event_resets_count_keeps_timer_witness :
  In connectedHandler
     (EventEmitter.listeners "c1connected" (eventEmitter connectedSession)) /\
  currentRetryCount (emit "c1connected" (ackOf None) connectedSession) = 0 /\
  timers (emit "c1connected" (ackOf None) connectedSession)
  = timers connectedSession.
Proof.
  assert (In connectedHandler
            (EventEmitter.listeners
               (clientId connectedSession ++ CONNECTED_EVENT events)%string
               (eventEmitter connectedSession))) as H
    by (vm_compute; left; reflexivity).
  split; [exact H|].
  destruct (connected_event_resets_count_keeps_timer
              events connectedSession (ackOf None) H)
    as (A & _ & _ & B & _).
  split; [exact A | exact B].
Defined.

(** C4 as the claim has it fails: after the CONNECTED event the retry
    timer scheduled by [connect] is still pending. *)
Lemma connected_event_leaves_timer_pending :
  ~ (currentRetryCount connectedSession = 0 /\
     pendingTimers (timers connectedSession) = []).
Proof.
  intros [_ H]; vm_compute in H; discriminate.
Qed.

(** *** What the listeners of one event see and say *)

Lemma handle_told (h : Handler) (ack : Ack) (w : World) :
  calls (handle h ack w) = calls w ++ told w ack h /\
  awaiting (handle h ack w) = awaiting w ++ deferred w ack h.
Proof.
  destruct h as [| | | | |d c]; try (simpl; rewrite ?app_nil_r; auto; fail).
  destruct c; cbn [handle intercept told]; unfold deferred, askIntercepter.
  - destruct (connectionStatus w); simpl; rewrite ?app_nil_r; auto.
    destruct (onReconnectIntercepter w); simpl; rewrite ?app_nil_r; auto.
  - destruct (connectionStatus w) eqn:Es; simpl; rewrite ?app_nil_r; auto.
    destruct (throwsOn cb (reasonCode ack)); simpl; rewrite ?Es; simpl;
      rewrite ?app_nil_r, <- ?app_assoc; auto.
  - destruct (connectionStatus w) eqn:Es; simpl; rewrite ?app_nil_r; auto;
      destruct (throwsOn cb (reasonCode ack)); simpl; rewrite ?Es; simpl;
      rewrite ?app_nil_r, <- ?app_assoc; auto.
Qed.

Lemma told_sameView (w w0 : World) (ack : Ack) (h : Handler) :
  sameView w w0 ->
  told w ack h = told w0 ack h /\ deferred w ack h = deferred w0 ack h.
Proof.
  intros (A & B & C & D & E).
  destruct h as [| | | | |d c]; [| | | | |destruct c];
    simpl; unfold deferred; rewrite ?A, ?B, ?C, ?D; auto.
  destruct (connectionStatus w0); auto.
  rewrite E by reflexivity; auto.
Qed.

Lemma handle_sameView (h : Handler) (ack : Ack) (w w0 : World) :
  h <> connectedHandler -> sameView w w0 -> sameView (handle h ack w) w0.
Proof.
  intros Hh (A & B & C & D & E).
  destruct h as [| | | | |d c]; try contradiction;
    try (repeat split; auto; fail).
  destruct (tryCatch_frame d c ack w)
    as (_ & _ & _ & _ & _ & O & _ & I & S & K & R).
  unfold sameView; rewrite S, K, O, I; repeat split; auto.
  intros H0; rewrite R by congruence; auto.
Qed.

Lemma handlers_told (l : list Handler) (ack : Ack) (w w0 : World) :
  ~ In connectedHandler l ->
  sameView w w0 ->
  let w' := fold_left (fun w h => handle h ack w) l w in
  calls w' = calls w ++ flat_map (told w0 ack) l /\
  awaiting w' = awaiting w ++ flat_map (deferred w0 ack) l /\
  sameView w' w0.
Proof.
  revert w; induction l as [|h l IH]; intros w Hn Hv; simpl.
  - rewrite !app_nil_r; auto.
  - assert (h <> connectedHandler) as Hh by (intros ->; apply Hn; now left).
    assert (~ In connectedHandler l) as Hl by (intros X; apply Hn; now right).
    destruct (IH (handle h ack w) Hl (handle_sameView h ack w w0 Hh Hv))
      as (A & B & C).
    destruct (handle_told h ack w) as (D & E).
    destruct (told_sameView w w0 ack h Hv) as (F & G).
    rewrite A, B, D, E, F, G, <- !app_assoc; auto.
Qed.

Lemma sameView_refl (w : World) : sameView w w.
Proof. repeat split. Qed.

(** In a reachable session the connected handler sits on the connected
    channel only. *)
Lemma no_connectedHandler_on_disconnected (EV : MQTT_EVENTS) (w : World) :
  reachable EV w ->
  CONNECTED_EVENT EV <> DISCONNECTED_EVENT EV ->
  ~ In connectedHandler
      (EventEmitter.listeners (clientId w ++ DISCONNECTED_EVENT EV)%string
                              (eventEmitter w)).
Proof.
  intros Hr Hne Hin.
  apply EventEmitterFacts.listeners_registrations in Hin.
  apply (inv_connected EV w (Inv_reachable EV w Hr)) in Hin.
  apply Hne; symmetry.
  revert Hin; generalize (clientId w) as c.
  induction c as [|a c IH]; simpl; intros H; [auto|].
  injection H as H; auto.
Qed.

(** *** Reconnecting after a drop *)

Lemma continue_thenConnect (o : option MqttOptions)
      (code : option Mqtt5ReasonCode) (w : World) :
  let w' := continue (thenConnect o code) w in
  options w' = options (resetOptions o w) /\
  currentRetryCount w' = 0 /\
  connectionStatus w' = CONNECTING /\
  mqtt5DisconnectReasonCode w' = code /\
  native w'
  = native w
    ++ [connectMqtt (clientId w)
          (or truthy_num (opt (options w') keepAlive) 60%Z)
          (or truthy_str (opt (options w') username) "")
          (or truthy_str (opt (options w') password) "")
          true].
Proof.
  destruct (connect_frame o w) as (A & B & C & D & _ & _ & E).
  simpl in *; rewrite B, E; repeat split; auto.
Qed.

(** C1 as the claim has it fails: the interceptor is not called with the
    event's reason code. *)
Lemma autoReconnect_does_not_pass_event_code :
  calls (emit "c1disconnected" (ackOf (Some 135%Z)) connectedSession)
  = [onReconnectIntercepterCalled None] /\
  ~ In (onReconnectIntercepterCalled (Some 135%Z))
       (calls (emit "c1disconnected" (ackOf (Some 135%Z)) connectedSession)).
Proof.
  split; [reflexivity|].
  intros [H|[]]; discriminate.
Qed.

(** ** Identifiers *)

Lemma append_inv_head (a b c : string) :
  (a ++ b)%string = (a ++ c)%string -> b = c.
Proof.
  induction a as [|x a IH]; simpl; intros H; auto.
  injection H as H; auto.
Qed.

Lemma show_inj (n m : nat) : show n = show m -> n = m.
Proof.
  unfold show; intros H.
  apply DecimalNat.Unsigned.to_uint_inj.
  assert (Some (Nat.to_uint n) = Some (Nat.to_uint m)) as E
    by (rewrite <- !NilEmpty.usu; now rewrite H).
  now injection E.
Qed.

(** The identifier, spelled out. *)
Lemma getMqttSubscribeEventId_spec (topic : string) (qos : MqttQos)
      (w : World) :
  getMqttSubscribeEventId topic qos w
  = (("mqtt_client#" ++ clientId w ++ "#subscribe_mqtt#" ++ topic ++ "#"
        ++ show qos ++ "#" ++ show (S (tag w)))%string,
     set_tag (S (tag w)) w).
Proof.
  reflexivity.
Qed.


(** ** Subscriptions *)

Module SubscribeFacts.
Import EventEmitter.

Lemma remove_app (e l : t) (k : nat) :
  remove (List.length e + k) (e ++ l) = e ++ remove k l.
Proof.
  induction e as [|x e IH]; simpl; auto.
  now rewrite IH.
Qed.

Lemma registrations_removeAll (e : t) (eventId : string) :
  registrations (removeAllListeners eventId e)
  = filter (fun kh => negb (fst kh =? eventId)%string) (registrations e).
Proof.
  induction e as [|[[k h]|] e IH]; simpl; auto.
  destruct (k =? eventId)%string; simpl; now rewrite IH.
Qed.

Lemma remove_nth (e : t) (token i : nat) :
  nth_error (remove token e) i
  = if (i =? token)%nat
    then match nth_error e i with Some _ => Some None | None => None end
    else nth_error e i.
Proof.
  destruct (Nat.eqb_spec i token) as [->|Hne].
  - destruct (Nat.lt_ge_cases token (List.length e)) as [Hlt|Hge].
    + rewrite EventEmitterFacts.remove_nth_same by auto.
      destruct (nth_error e token) eqn:E; auto.
      apply nth_error_None in E; lia.
    + assert (nth_error e token = None) as -> by now apply nth_error_None.
      apply nth_error_None; now rewrite EventEmitterFacts.remove_length.
  - now apply EventEmitterFacts.remove_nth_other.
Qed.

End SubscribeFacts.

(** What [subscribe] does, step by step. *)
Lemma subscribe_spec (EV : MQTT_EVENTS) (topic : string)
      (qos : option MqttQos) (onEvent : Callback)
      (onSuccess onError : option Callback) (w : World) :
  let q := nullish qos 1 in
  let id := fst (getMqttSubscribeEventId topic q w) in
  let n := List.length (eventEmitter w) in
  subscribe EV topic qos onEvent onSuccess onError w
  = ({| listener := n; success := n + 1; failed := n + 2 |},
     set_eventEmitter
       (eventEmitter w
        ++ [Some (id, subscriptionListener onEvent);
            Some ((id ++ SUBSCRIPTION_SUCCESS_EVENT EV)%string,
                  subscriptionSuccess onSuccess);
            Some ((id ++ SUBSCRIPTION_FAILED_EVENT EV)%string,
                  subscriptionFailed onError)])
       (invoke (subscribeMqtt id (clientId w) topic q)
               (set_tag (S (tag w)) w))).
Proof.
  unfold subscribe, getMqttSubscribeEventId, addListener,
    EventEmitter.addListener; simpl.
  rewrite !length_app; simpl.
  rewrite <- !app_assoc; simpl.
  rewrite <- !Nat.add_assoc; reflexivity.
Qed.

Lemma removeSubscription_app (e l : EventEmitter.t) (a b c : nat)
      (w : World) :
  eventEmitter w = e ++ l ->
  eventEmitter
    (removeSubscription
       {| listener := List.length e + a; success := List.length e + b;
          failed := List.length e + c |} w)
  = e ++ EventEmitter.remove c (EventEmitter.remove b (EventEmitter.remove a l)).
Proof.
  intros E; unfold removeSubscription, removeListener; simpl.
  now rewrite E, !SubscribeFacts.remove_app.
Qed.


(** C8.  The object [subscribe] returns holds the three registrations
    the call made, under [eventId], [eventId + SUCCESS] and
    [eventId + FAILURE].  Its [remove()], in whatever state the session is
    by then, empties those three registrations and changes nothing else:
    every other registration of the emitter (other subscriptions, on the
    same topic or not, and the connected and disconnected channels) is as
    it was, nothing is asked of the native layer (no [unsubscribeMqtt]),
    and the session's own fields are untouched. *)
Theorem subscription_remove_is_exact :
  forall (EV : MQTT_EVENTS) (w : World) (topic : string)
         (qos : option MqttQos) (onEvent : Callback)
         (onSuccess onError : option Callback) (later : World) (i : nat),
    let r := subscribe EV topic qos onEvent onSuccess onError w in
    let s := fst r in
    let id := fst (getMqttSubscribeEventId topic (nullish qos 1) w) in
    let w' := removeSubscription s later in
    nth_error (eventEmitter (snd r)) (listener s)
    = Some (Some (id, subscriptionListener onEvent)) /\
    nth_error (eventEmitter (snd r)) (success s)
    = Some (Some ((id ++ SUBSCRIPTION_SUCCESS_EVENT EV)%string,
                  subscriptionSuccess onSuccess)) /\
    nth_error (eventEmitter (snd r)) (failed s)
    = Some (Some ((id ++ SUBSCRIPTION_FAILED_EVENT EV)%string,
                  subscriptionFailed onError)) /\
    nth_error (eventEmitter w') i
    = (if ((i =? listener s) || (i =? success s) || (i =? failed s))%nat
       then match nth_error (eventEmitter later) i with
            | Some _ => Some None
            | None => None
            end
       else nth_error (eventEmitter later) i) /\
    native w' = native later /\
    w' = set_eventEmitter (eventEmitter w') later.
Proof.
  intros EV w topic qos onEvent onSuccess onError later i r s id w'.
  pose proof (subscribe_spec EV topic qos onEvent onSuccess onError w) as S.
  cbv zeta in S; fold r id in S.
  set (e := eventEmitter w) in *.
  assert (listener s = List.length e /\ success s = List.length e + 1 /\
          failed s = List.length e + 2 /\
          eventEmitter (snd r)
          = e ++ [Some (id, subscriptionListener onEvent);
                  Some ((id ++ SUBSCRIPTION_SUCCESS_EVENT EV)%string,
                        subscriptionSuccess onSuccess);
                  Some ((id ++ SUBSCRIPTION_FAILED_EVENT EV)%string,
                        subscriptionFailed onError)])
    as (L & Sc & F & E) by (unfold s; rewrite S; repeat split).
  split; [|split; [|split; [|split; [|split]]]].
  - rewrite E, L, nth_error_app2, Nat.sub_diag by lia; reflexivity.
  - rewrite E, Sc, nth_error_app2 by lia.
    replace (List.length e + 1 - List.length e) with 1 by lia; reflexivity.
  - rewrite E, F, nth_error_app2 by lia.
    replace (List.length e + 2 - List.length e) with 2 by lia; reflexivity.
  - unfold w', removeSubscription, removeListener; cbn [eventEmitter set_eventEmitter].
    rewrite !SubscribeFacts.remove_nth.
    destruct (Nat.eqb_spec i (listener s)), (Nat.eqb_spec i (success s)),
      (Nat.eqb_spec i (failed s)); cbn [orb];
      destruct (nth_error (eventEmitter later) i); reflexivity.
  - reflexivity.
  - destruct later; reflexivity.
Qed.

(** Another subscription's registrations survive the removal: the slots
    of a later [subscribe] are not those of the earlier one. *)
Lemma subscribe_tokens_fresh (EV : MQTT_EVENTS) (w : World) (topic : string)
      (qos : option MqttQos) (onEvent : Callback)
      (onSuccess onError : option Callback) :
  let s := fst (subscribe EV topic qos onEvent onSuccess onError w) in
  listener s = List.length (eventEmitter w) /\
  success s = List.length (eventEmitter w) + 1 /\
  failed s = List.length (eventEmitter w) + 2.
Proof.
  rewrite subscribe_spec; repeat split.
Qed.

(** ** Removing the session *)

(** C2, as the code has it.  [remove] asks the native layer to remove the
    client and clears the connected and the disconnected channel of the
    client; the registrations left are exactly those there were under any
    other identifier, in the same order; so the registrations of
    subscriptions stay until their own [remove()] is called. *)
Theorem remove_clears_connection_channels_only :
  forall (EV : MQTT_EVENTS) (w : World),
    let connected := (clientId w ++ CONNECTED_EVENT EV)%string in
    let disconnected := (clientId w ++ DISCONNECTED_EVENT EV)%string in
    let w' := remove EV w in
    native w' = native w ++ [removeMqtt (clientId w)] /\
    EventEmitter.listeners connected (eventEmitter w') = [] /\
    EventEmitter.listeners disconnected (eventEmitter w') = [] /\
    EventEmitter.registrations (eventEmitter w')
    = filter (fun kh => negb (fst kh =? connected)%string
                        && negb (fst kh =? disconnected)%string)
             (EventEmitter.registrations (eventEmitter w)) /\
    List.length (eventEmitter w') = List.length (eventEmitter w).
Proof.
  intros EV w connected disconnected w'.
  unfold w', remove; cbn [native eventEmitter set_eventEmitter invoke
                           set_native clientId].
  fold connected disconnected.
  split; [reflexivity|].
  split; [apply EventEmitterFacts.listeners_removeAll|].
  split; [|split].
  - destruct (String.eqb_spec disconnected connected) as [E|Hne].
    + rewrite E; apply EventEmitterFacts.listeners_removeAll.
    + rewrite EventEmitterFacts.listeners_removeAll_other by exact Hne.
      apply EventEmitterFacts.listeners_removeAll.
  - rewrite !SubscribeFacts.registrations_removeAll.
    induction (EventEmitter.registrations (eventEmitter w)) as [|kh l IH];
      simpl; auto.
    destruct (fst kh =? disconnected)%string; simpl;
      destruct (fst kh =? connected)%string; simpl; rewrite IH; auto.
  - unfold EventEmitter.removeAllListeners; now rewrite !length_map.
Qed.

(** C2 as the claim has it fails: after [remove] on a session with two
    subscriptions their six registrations are still in the emitter under
    the client's prefix. *)
Lemma remove_leaves_subscription_listeners :
  List.length
    (registeredUnder (getIdPrefix twoSubscriptions)
                     (eventEmitter (remove events twoSubscriptions))) = 6 /\
  registeredUnder (getIdPrefix twoSubscriptions)
                  (eventEmitter (remove events twoSubscriptions)) <> [].
Proof.
  split; [reflexivity | discriminate].
Qed.

(** ** Retries *)

Lemma fire_idle (h : nat) (status : CONNECTION_STATE) (w : World) :
  pendingTimers (timers w) = [] -> fire h status w = w.
Proof.
  intros H; unfold fire.
  destruct (nth_error (timers w) h) as [t|] eqn:E; auto.
  destruct (pending t) eqn:P; auto.
  assert (In t (pendingTimers (timers w))) as Hin
    by (apply filter_In; split; [eapply nth_error_In; eauto | auto]).
  rewrite H in Hin; destruct Hin.
Qed.

Lemma resume_idle (n : nat) (w : World) :
  awaiting w = [] -> resume n w = w.
Proof.
  intros H; unfold resume; rewrite H; destruct n; reflexivity.
Qed.

(** C3.  With [retryCount = 3], [backoffTime = 100], a cap and jitter
    off, and a native layer that never reports CONNECTED: [connect] and
    the retries schedule exactly three timers; the helper is handed the
    base 100, the cap, jitter off and the number of retries made so far,
    0, 1 and 2, so that with an exponential helper the delays are 100,
    200 and 400 ms, each capped; after the third timer has fired the
    retry count is 3, no timer is pending, nothing is suspended, and no
    timer or promise can change the session any more: no further retry
    is scheduled. *)
Theorem three_retries_at_doubling_delays :
  forall (EV : MQTT_EVENTS) (e : EventEmitter.t) (clientId host : string)
         (port : Z) (g : option Z -> Z -> option Z -> option bool -> Z)
         (maxBackoff : Z) (status : nat -> CONNECTION_STATE) (h n : nat)
         (s : CONNECTION_STATE),
    exponentialBackoff g ->
    (0 < maxBackoff)%Z ->
    (forall i, status i <> CONNECTED) ->
    let w :=
      run EV (neverConfirmed status 3)
          (constructor EV e clientId host port
                       (Some (retryOptions 3 100 maxBackoff))) in
    List.length (timers w) = 3 /\
    map attempt (timers w) = [0; 1; 2]%Z /\
    map (delayWith g) (timers w)
    = [Z.min maxBackoff 100; Z.min maxBackoff 200; Z.min maxBackoff 400] /\
    pendingTimers (timers w) = [] /\
    awaiting w = [] /\
    currentRetryCount w = 3 /\
    fire h s w = w /\
    resume n w = w.
Proof.
  intros EV e cid hst prt g maxBackoff status h n s Hg Hcap Hst w.
  assert (timers w
          = [ {| base := Some 100%Z; attempt := Z.of_nat 0;
                 cap := Some maxBackoff;
                 useJitter := Some false; pending := false |};
              {| base := Some 100%Z; attempt := Z.of_nat 1;
                 cap := Some maxBackoff;
                 useJitter := Some false; pending := false |};
              {| base := Some 100%Z; attempt := Z.of_nat 2;
                 cap := Some maxBackoff;
                 useJitter := Some false; pending := false |} ] /\
          awaiting w = [] /\ currentRetryCount w = 3) as (T & A & C).
  { unfold w, neverConfirmed; cbn [flat_map seq app].
    pose proof (Hst 0) as H0; pose proof (Hst 1) as H1;
      pose proof (Hst 2) as H2.
    unfold constructor.
    destruct (status 0), (status 1), (status 2); try contradiction;
      destruct (negb (truthy_str hst));
      repeat split. }
  assert (pendingTimers (timers w) = []) as P by (rewrite T; reflexivity).
  repeat split.
  - now rewrite T.
  - now rewrite T.
  - rewrite T; unfold delayWith; cbn [map base cap useJitter attempt].
    rewrite !Hg by lia; reflexivity.
  - exact P.
  - exact A.
  - exact C.
  - now apply fire_idle.
  - now apply resume_idle.
Qed.

Lemma three_retries_at_doubling_delays_witness :
  let g := fun (b : option Z) (k : Z) (c : option Z) (j : option bool) =>
             match b, c with
             | Some b, Some c => Z.min c (b * 2 ^ k)%Z
             | _, _ => 0%Z
             end in
  exponentialBackoff g /\
  (0 < 10000)%Z /\
  (forall i : nat, (fun _ : nat => CONNECTING) i <> CONNECTED) /\
  List.length (timers unconfirmedSession) = 3 /\
  map (delayWith g) (timers unconfirmedSession) = [100; 200; 400]%Z /\
  fire 2 CONNECTING unconfirmedSession = unconfirmedSession.
Proof.
  intros g.
  assert (exponentialBackoff g) as H0 by (intros b c k _ _; reflexivity).
  assert (0 < 10000)%Z as H1 by lia.
  assert (forall i : nat, (fun _ : nat => CONNECTING) i <> CONNECTED) as H2
    by (intros i; discriminate).
  split; [exact H0 | split; [exact H1 | split; [exact H2|]]].
  destruct (three_retries_at_doubling_delays
              events [] "c1" "broker" 1883%Z g 10000%Z
              (fun _ => CONNECTING) 2 0 CONNECTING H0 H1 H2)
    as (L & _ & D & _ & _ & _ & F & _).
  split; [exact L | split; [exact D | exact F]].
Defined.

(** ** Registrations that stay *)

Lemma continue_eventEmitter (k : Continuation) (w : World) :
  eventEmitter (continue k w) = eventEmitter w.
Proof.
  destruct k as [o c|o]; simpl.
  - now destruct (connect_frame o w) as (_ & _ & _ & _ & _ & -> & _).
  - destruct (connection_frame (resetOptions o w))
      as (_ & _ & _ & _ & _ & -> & _).
    now destruct o.
Qed.

Lemma fire_eventEmitter (h : nat) (status : CONNECTION_STATE) (w : World) :
  eventEmitter (fire h status w) = eventEmitter w.
Proof.
  unfold fire.
  destruct (nth_error (timers w) h) as [t|]; auto.
  destruct (pending t); auto.
  unfold retryCallback; destruct (negb _); auto.
  unfold askIntercepter; simpl.
  destruct (onReconnectIntercepter w); reflexivity.
Qed.

Lemma nth_error_snoc {A} (l l' : list A) (i : nat) (x : A) :
  nth_error l i = Some x -> nth_error (l ++ l') i = Some x.
Proof.
  intros H; rewrite nth_error_app1; auto.
  apply nth_error_Some; congruence.
Qed.

(** A registration stays in its slot under every action that spares it. *)
Lemma step_spares (EV : MQTT_EVENTS) (a : Action) (w : World) (i : nat)
      (kh : string * Handler) :
  nth_error (eventEmitter w) i = Some (Some kh) ->
  spares i a = true ->
  nth_error (eventEmitter (step EV w a)) i = Some (Some kh).
Proof.
  intros H Hs.
  destruct a as [o| | |topic qos on os oe|s|f|cb|cb|cb|token|k ack|h st|n];
    cbn [step spares] in *; try exact H; try discriminate.
  - now destruct (connect_frame o w) as (_ & _ & _ & _ & _ & -> & _).
  - rewrite subscribe_spec; cbn [snd eventEmitter set_eventEmitter].
    now apply nth_error_snoc.
  - apply andb_prop in Hs as [Hs H3]; apply andb_prop in Hs as [H1 H2].
    apply negb_true_iff, Nat.eqb_neq in H1, H2, H3.
    unfold removeSubscription, removeListener;
      cbn [eventEmitter set_eventEmitter].
    rewrite !EventEmitterFacts.remove_nth_other by auto; exact H.
  - apply (nth_error_snoc (eventEmitter w)); exact H.
  - apply (nth_error_snoc (eventEmitter w)); exact H.
  - apply (nth_error_snoc (eventEmitter w)); exact H.
  - apply negb_true_iff, Nat.eqb_neq in Hs.
    unfold removeListener; cbn [eventEmitter set_eventEmitter].
    rewrite EventEmitterFacts.remove_nth_other by auto; exact H.
  - unfold emit.
    now destruct (handlers_frame
                    (EventEmitter.listeners k (eventEmitter w)) ack w)
      as (_ & _ & _ & -> & _).
  - now rewrite fire_eventEmitter.
  - unfold resume; destruct (nth_error (awaiting w) n); auto.
    now rewrite continue_eventEmitter.
Qed.

Lemma run_spares (EV : MQTT_EVENTS) (l : list Action) (w : World) (i : nat)
      (kh : string * Handler) :
  nth_error (eventEmitter w) i = Some (Some kh) ->
  forallb (spares i) l = true ->
  nth_error (eventEmitter (run EV l w)) i = Some (Some kh).
Proof.
  revert w; induction l as [|a l IH]; intros w H Hs; simpl in *; auto.
  apply andb_prop in Hs as [Ha Hl].
  apply IH; auto using step_spares.
Qed.

(** A session made with a host keeps its connected handler registered
    until [remove] or the removal of that very registration. *)
Lemma connectedHandler_stays (EV : MQTT_EVENTS) (l : list Action)
      (clientId0 host : string) (port : Z) (o : option MqttOptions) :
  host <> "" ->
  forallb (spares 0) l = true ->
  let w := run EV l (constructor EV [] clientId0 host port o) in
  In connectedHandler
     (EventEmitter.listeners (clientId w ++ CONNECTED_EVENT EV)%string
                             (eventEmitter w)).
Proof.
  intros Hh Hs w.
  apply EventEmitterFacts.listeners_registrations,
    EventEmitterFacts.registrations_nth.
  exists 0; unfold w.
  rewrite run_clientId, constructor_clientId.
  apply run_spares; auto.
  destruct (constructor_with_host EV clientId0 host port o Hh) as [_ H].
  destruct (eventEmitter (constructor EV [] clientId0 host port o));
    [discriminate | exact H].
Qed.

(** With [autoReconnect] on, the same for the auto-reconnect listener. *)
Lemma autoReconnectHandler_stays (EV : MQTT_EVENTS) (l : list Action)
      (clientId0 host : string) (port : Z) (o : option MqttOptions) :
  host <> "" ->
  opt o autoReconnect = Some true ->
  forallb (spares 1) l = true ->
  let w := run EV l (constructor EV [] clientId0 host port o) in
  In (tryCatch (DEFAULT EV) autoReconnectHandler)
     (EventEmitter.listeners (clientId w ++ DISCONNECTED_EVENT EV)%string
                             (eventEmitter w)).
Proof.
  intros Hh Ha Hs w.
  apply EventEmitterFacts.listeners_registrations,
    EventEmitterFacts.registrations_nth.
  exists 1; unfold w.
  rewrite run_clientId, constructor_clientId.
  apply run_spares; auto.
  unfold constructor, truthy_str.
  destruct (String.eqb_spec host "") as [|_]; [contradiction|].
  rewrite Ha; reflexivity.
Qed.

(** ** A disconnect event, by the status it finds *)

Lemma reachable_run (EV : MQTT_EVENTS) (l : list Action) (w : World) :
  reachable EV w -> reachable EV (run EV l w).
Proof.
  revert w; induction l as [|a l IH]; intros w H; simpl; auto.
  apply IH, reachable_step, H.
Qed.

Lemma fallbacks_add (EV : MQTT_EVENTS) (e : EventEmitter.t) (k : string)
      (h : Handler) :
  fallbacks EV e = true -> defaultFallback EV h = true ->
  fallbacks EV (e ++ [Some (k, h)]) = true.
Proof.
  unfold fallbacks; intros He Hh.
  rewrite EventEmitterFacts.registrations_app, forallb_app, He; simpl.
  now rewrite Hh.
Qed.

Lemma fallbacks_sub (EV : MQTT_EVENTS) (e e' : EventEmitter.t) :
  (forall kh, In kh (EventEmitter.registrations e') ->
              In kh (EventEmitter.registrations e)) ->
  fallbacks EV e = true -> fallbacks EV e' = true.
Proof.
  unfold fallbacks; rewrite !forallb_forall; auto.
Qed.

Lemma step_fallbacks (EV : MQTT_EVENTS) (a : Action) (w : World) :
  fallbacks EV (eventEmitter w) = true ->
  fallbacks EV (eventEmitter (step EV w a)) = true.
Proof.
  intros He.
  destruct a as [o| | |topic qos on os oe|s|f|cb|cb|cb|token|k ack|h st|n];
    cbn [step].
  - now destruct (connect_frame o w) as (_ & _ & _ & _ & _ & -> & _).
  - exact He.
  - eapply fallbacks_sub; [|exact He].
    intros kh Hin; unfold remove in Hin;
      cbn [eventEmitter set_eventEmitter invoke set_native] in Hin.
    apply EventEmitterFacts.removeAll_registrations in Hin as [Hin _].
    now apply EventEmitterFacts.removeAll_registrations in Hin as [Hin _].
  - rewrite subscribe_spec; cbn [snd eventEmitter set_eventEmitter
                                  invoke set_native set_tag].
    change (eventEmitter w ++ [?a; ?b; ?c])
      with (eventEmitter w ++ [a] ++ [b] ++ [c]).
    rewrite !app_assoc.
    repeat apply fallbacks_add; auto.
  - eapply fallbacks_sub; [|exact He].
    intros kh Hin; unfold removeSubscription, removeListener in Hin;
      cbn [eventEmitter set_eventEmitter] in Hin.
    now repeat apply EventEmitterFacts.remove_registrations in Hin.
  - exact He.
  - apply fallbacks_add; auto.
  - apply fallbacks_add; auto; apply Z.eqb_refl.
  - apply fallbacks_add; auto; apply Z.eqb_refl.
  - eapply fallbacks_sub; [|exact He].
    intros kh Hin; unfold removeListener in Hin;
      cbn [eventEmitter set_eventEmitter] in Hin.
    now apply EventEmitterFacts.remove_registrations in Hin.
  - unfold emit.
    now destruct (handlers_frame
                    (EventEmitter.listeners k (eventEmitter w)) ack w)
      as (_ & _ & _ & -> & _).
  - now rewrite fire_eventEmitter.
  - unfold resume; destruct (nth_error (awaiting w) n); auto.
    now rewrite continue_eventEmitter.
Qed.

(** In a reachable session every listener built by
    [onDisconnectInterceptor] falls back on [DEFAULT]. *)
Lemma reachable_fallbacks (EV : MQTT_EVENTS) (w : World) (k : string) :
  reachable EV w ->
  forallb (defaultFallback EV) (EventEmitter.listeners k (eventEmitter w))
  = true.
Proof.
  intros (c & h & p & o & l & ->).
  assert (fallbacks EV (eventEmitter (run EV l (constructor EV [] c h p o)))
          = true) as H.
  { assert (fallbacks EV (eventEmitter (constructor EV [] c h p o)) = true)
      as H0.
    { unfold constructor.
      destruct (negb (truthy_str h)); [reflexivity|].
      destruct (or truthy_bool (opt o autoReconnect) false);
        unfold fallbacks; simpl; rewrite ?Z.eqb_refl; reflexivity. }
    revert H0; generalize (constructor EV [] c h p o).
    induction l as [|a l IH]; intros v Hv; simpl; auto.
    apply IH, step_fallbacks, Hv. }
  apply forallb_forall; intros x Hx.
  apply EventEmitterFacts.listeners_registrations in Hx.
  unfold fallbacks in H; rewrite forallb_forall in H.
  exact (H _ Hx).
Qed.

Ltac told_cases h Hs :=
  destruct h as [| | | | |?d [|?cb|?cb]]; simpl in *; rewrite ?Hs in *;
  simpl in *;
  repeat match goal with
         | H : context [onReconnectIntercepter ?w] |- _ =>
             destruct (onReconnectIntercepter w); simpl in H
         | H : context [if throwsOn ?cb ?c then _ else _] |- _ =>
             destruct (throwsOn cb c) eqn:?; simpl in H
         | H : _ \/ _ |- _ => destruct H
         | H : False |- _ => destruct H
         end;
  try discriminate.

(** A call of a connect-failure callback comes from a registered listener,
    found the session CONNECTING, and carries the event's code, or the
    default code after the callback threw. *)
Lemma told_failure (EV : MQTT_EVENTS) (w : World) (ack : Ack)
      (l : list Handler) (cb : Callback) (code : option Mqtt5ReasonCode) :
  forallb (defaultFallback EV) l = true ->
  In (onConnectFailureCalled cb code) (flat_map (told w ack) l) ->
  connectionStatus w = CONNECTING /\
  In (tryCatch (DEFAULT EV) (connectFailureCallback cb)) l /\
  (code = reasonCode ack \/
   throwsOn cb (reasonCode ack) = true /\ code = Some (DEFAULT EV)).
Proof.
  intros Hd H.
  apply in_flat_map in H as (h & Hin & Hc).
  rewrite forallb_forall in Hd; pose proof (Hd h Hin) as Hh.
  destruct (connectionStatus w) eqn:Hs; told_cases h Hs;
    match goal with
    | H : _ = onConnectFailureCalled _ _ |- _ => injection H as <- <-
    end;
    apply Z.eqb_eq in Hh; subst; auto.
Qed.

(** The same for a disconnect callback: the session was not CONNECTING,
    and the call carries the options, the retry count and the type the
    status gives. *)
Lemma told_disconnect (EV : MQTT_EVENTS) (w : World) (ack : Ack)
      (l : list Handler) (cb : Callback) (code : option Mqtt5ReasonCode)
      (o : option MqttOptions) (t : DisconnectType) (r : nat) :
  forallb (defaultFallback EV) l = true ->
  In (onDisconnectCalled cb code o t r) (flat_map (told w ack) l) ->
  In (tryCatch (DEFAULT EV) (disconnectCallback cb)) l /\
  o = options w /\ r = currentRetryCount w /\
  (code = reasonCode ack \/
   throwsOn cb (reasonCode ack) = true /\ code = Some (DEFAULT EV)) /\
  (connectionStatus w = DISCONNECTED /\ t = forceDisconnected \/
   connectionStatus w = CONNECTED /\ t = autoDisconnected).
Proof.
  intros Hd H.
  apply in_flat_map in H as (h & Hin & Hc).
  rewrite forallb_forall in Hd; pose proof (Hd h Hin) as Hh.
  destruct (connectionStatus w) eqn:Hs; told_cases h Hs;
    match goal with
    | H : _ = onDisconnectCalled _ _ _ _ _ |- _ =>
        injection H as <- <- <- <- <-
    end;
    apply Z.eqb_eq in Hh; subst; auto 7.
Qed.

Lemma failure_told (w : World) (ack : Ack) (l : list Handler)
      (d : Mqtt5ReasonCode) (cb : Callback) :
  In (tryCatch d (connectFailureCallback cb)) l ->
  connectionStatus w = CONNECTING ->
  In (onConnectFailureCalled cb (reasonCode ack)) (flat_map (told w ack) l) /\
  (throwsOn cb (reasonCode ack) = true ->
   In (onConnectFailureCalled cb (Some d)) (flat_map (told w ack) l)).
Proof.
  intros Hin Hs; split; [|intros Ht];
    apply in_flat_map; eexists; (split; [exact Hin|]);
    cbn [told]; rewrite Hs, ?Ht; simpl; auto.
Qed.

Lemma disconnect_told (w : World) (ack : Ack) (l : list Handler)
      (d : Mqtt5ReasonCode) (cb : Callback) (t : DisconnectType) :
  In (tryCatch d (disconnectCallback cb)) l ->
  (connectionStatus w = DISCONNECTED /\ t = forceDisconnected \/
   connectionStatus w = CONNECTED /\ t = autoDisconnected) ->
  In (onDisconnectCalled cb (reasonCode ack) (options w) t
                         (currentRetryCount w))
     (flat_map (told w ack) l) /\
  (throwsOn cb (reasonCode ack) = true ->
   In (onDisconnectCalled cb (Some d) (options w) t (currentRetryCount w))
      (flat_map (told w ack) l)).
Proof.
  intros Hin [[Hs ->]|[Hs ->]]; (split; [|intros Ht]);
    apply in_flat_map; eexists; (split; [exact Hin|]);
    cbn [told]; rewrite Hs, ?Ht; simpl; auto.
Qed.

(** The two registrations, and that they stay. *)
Lemma callbacks_registered (EV : MQTT_EVENTS) (w : World)
      (onFailure onDisconnect : Callback) (later : list Action) :
  let r1 := setOnConnectFailureCallback EV onFailure w in
  let r2 := setOnDisconnectCallback EV onDisconnect (snd r1) in
  forallb (spares (fst r1)) later = true ->
  forallb (spares (fst r2)) later = true ->
  let w1 := run EV later (snd r2) in
  let registered :=
    EventEmitter.listeners (clientId w1 ++ DISCONNECTED_EVENT EV)%string
                           (eventEmitter w1) in
  In (tryCatch (DEFAULT EV) (connectFailureCallback onFailure)) registered /\
  In (tryCatch (DEFAULT EV) (disconnectCallback onDisconnect)) registered.
Proof.
  intros r1 r2 H1 H2 w1 registered.
  assert (clientId w1 = clientId w) as Ec
    by (unfold w1; now rewrite run_clientId).
  unfold registered; rewrite Ec.
  split; apply EventEmitterFacts.listeners_registrations,
           EventEmitterFacts.registrations_nth.
  - exists (fst r1); unfold w1; apply run_spares; [|exact H1].
    unfold r2, r1, setOnDisconnectCallback, setOnConnectFailureCallback,
      onDisconnectInterceptor, addListener, EventEmitter.addListener;
      cbn [fst snd eventEmitter set_eventEmitter clientId].
    rewrite <- app_assoc, nth_error_app2, Nat.sub_diag by lia; reflexivity.
  - exists (fst r2); unfold w1; apply run_spares; [|exact H2].
    unfold r2, r1, setOnDisconnectCallback, setOnConnectFailureCallback,
      onDisconnectInterceptor, addListener, EventEmitter.addListener;
      cbn [fst snd eventEmitter set_eventEmitter clientId].
    rewrite nth_error_app2, Nat.sub_diag by lia; reflexivity.
Qed.

(** C5.  With a connect-failure callback and a disconnect callback set on
    a session, and neither registration removed since, a disconnect event
    delivered to the session is reported by the status it finds.  Found
    CONNECTING: the connect-failure callback is called with the event's
    reason code, and no disconnect callback is called.  Found
    DISCONNECTED: the disconnect callback is called with the reason code,
    the options, [forceDisconnected] and the current retry count, and no
    connect-failure callback is called.  Found CONNECTED: the same with
    [autoDisconnected].  A callback that throws is called once more, with
    the default code in place of the event's, and these are all the calls
    there are: every call of such a callback carries the event's code or,
    after it threw, the default code. *)
Theorem disconnect_event_classified :
  forall (EV : MQTT_EVENTS) (w : World) (onFailure onDisconnect : Callback)
         (later : list Action) (ack : Ack),
    reachable EV w ->
    CONNECTED_EVENT EV <> DISCONNECTED_EVENT EV ->
    let r1 := setOnConnectFailureCallback EV onFailure w in
    let r2 := setOnDisconnectCallback EV onDisconnect (snd r1) in
    forallb (spares (fst r1)) later = true ->
    forallb (spares (fst r2)) later = true ->
    let w1 := run EV later (snd r2) in
    let channel := (clientId w1 ++ DISCONNECTED_EVENT EV)%string in
    let thrown (cb : Callback) (code : option Mqtt5ReasonCode) :=
      code = reasonCode ack \/
      throwsOn cb (reasonCode ack) = true /\ code = Some (DEFAULT EV) in
    exists new,
      calls (emit channel ack w1) = calls w1 ++ new /\
      (connectionStatus w1 = CONNECTING ->
       In (onConnectFailureCalled onFailure (reasonCode ack)) new /\
       (throwsOn onFailure (reasonCode ack) = true ->
        In (onConnectFailureCalled onFailure (Some (DEFAULT EV))) new) /\
       (forall cb code,
           In (onConnectFailureCalled cb code) new -> thrown cb code) /\
       (forall cb code o t r, ~ In (onDisconnectCalled cb code o t r) new)) /\
      (connectionStatus w1 = DISCONNECTED ->
       In (onDisconnectCalled onDisconnect (reasonCode ack) (options w1)
                              forceDisconnected (currentRetryCount w1)) new /\
       (throwsOn onDisconnect (reasonCode ack) = true ->
        In (onDisconnectCalled onDisconnect (Some (DEFAULT EV)) (options w1)
                               forceDisconnected (currentRetryCount w1))
           new) /\
       (forall cb code o t r,
           In (onDisconnectCalled cb code o t r) new ->
           thrown cb code /\ o = options w1 /\
           t = forceDisconnected /\ r = currentRetryCount w1) /\
       (forall cb code, ~ In (onConnectFailureCalled cb code) new)) /\
      (connectionStatus w1 = CONNECTED ->
       In (onDisconnectCalled onDisconnect (reasonCode ack) (options w1)
                              autoDisconnected (currentRetryCount w1)) new /\
       (throwsOn onDisconnect (reasonCode ack) = true ->
        In (onDisconnectCalled onDisconnect (Some (DEFAULT EV)) (options w1)
                               autoDisconnected (currentRetryCount w1))
           new) /\
       (forall cb code o t r,
           In (onDisconnectCalled cb code o t r) new ->
           thrown cb code /\ o = options w1 /\
           t = autoDisconnected /\ r = currentRetryCount w1) /\
       (forall cb code, ~ In (onConnectFailureCalled cb code) new)).
Proof.
  intros EV w onFailure onDisconnect later ack Hr Hne r1 r2 H1 H2 w1 channel
         thrown.
  destruct (callbacks_registered EV w onFailure onDisconnect later H1 H2)
    as (Rf & Rd).
  fold r1 r2 w1 channel in Rf, Rd.
  assert (reachable EV w1) as Hr1.
  { apply reachable_run.
    apply (reachable_step EV (SetOnDisconnectCallback onDisconnect)).
    apply (reachable_step EV (SetOnConnectFailureCallback onFailure)).
    exact Hr. }
  clearbody w1; clear r1 r2 H1 H2 Hr.
  pose proof (no_connectedHandler_on_disconnected EV w1 Hr1 Hne) as Hno.
  pose proof (reachable_fallbacks EV w1 channel Hr1) as Hd.
  fold channel in Hno.
  set (registered := EventEmitter.listeners channel (eventEmitter w1)) in *.
  destruct (handlers_told registered ack w1 w1 Hno (sameView_refl w1))
    as (E & _ & _).
  exists (flat_map (told w1 ack) registered).
  split; [exact E|].
  clearbody registered; clear E Hno.
  split; [|split]; intros Hs.
  - destruct (failure_told w1 ack registered _ onFailure Rf Hs) as (A & B).
    split; [exact A | split; [exact B | split]].
    + intros cb code H.
      now destruct (told_failure EV w1 ack registered cb code Hd H)
        as (_ & _ & T).
    + intros cb code o t r H.
      destruct (told_disconnect EV w1 ack registered cb code o t r Hd H)
        as (_ & _ & _ & _ & [[X _]|[X _]]); congruence.
  - destruct (disconnect_told w1 ack registered _ onDisconnect
                              forceDisconnected Rd) as (A & B); [auto|].
    split; [exact A | split; [exact B | split]].
    + intros cb code o t r H.
      destruct (told_disconnect EV w1 ack registered cb code o t r Hd H)
        as (_ & -> & -> & T & [[_ ->]|[X _]]); [auto | congruence].
    + intros cb code H.
      destruct (told_failure EV w1 ack registered cb code Hd H) as (X & _).
      congruence.
  - destruct (disconnect_told w1 ack registered _ onDisconnect
                              autoDisconnected Rd) as (A & B); [auto|].
    split; [exact A | split; [exact B | split]].
    + intros cb code o t r H.
      destruct (told_disconnect EV w1 ack registered cb code o t r Hd H)
        as (_ & -> & -> & T & [[X _]|[_ ->]]); [congruence | auto].
    + intros cb code H.
      destruct (told_failure EV w1 ack registered cb code Hd H) as (X & _).
      congruence.
Qed.

Lemma disconnect_event_classified_witness :
  let set :=
    snd (setOnDisconnectCallback
           events 8
           (snd (setOnConnectFailureCallback events (throwing 7)
                                             newSession))) in
  let connecting := run events [Connect None] set in
  let disconnected := run events [Connect None; Disconnect] set in
  let connected :=
    run events [Connect None; Emit "c1connected" (ackOf (Some 0%Z))] set in
  let delivered (w : World) :=
    emit (clientId w ++ DISCONNECTED_EVENT events)%string
         (ackOf (Some 135%Z)) w in
  reachable events newSession /\
  CONNECTED_EVENT events <> DISCONNECTED_EVENT events /\
  (exists new,
      calls (delivered connecting) = calls connecting ++ new /\
      In (onConnectFailureCalled (throwing 7) (Some 135%Z)) new /\
      In (onConnectFailureCalled (throwing 7) (Some (-1)%Z)) new /\
      forall cb code o t r, ~ In (onDisconnectCalled cb code o t r) new) /\
  (exists new,
      calls (delivered disconnected) = calls disconnected ++ new /\
      In (onDisconnectCalled 8 (Some 135%Z) (options disconnected)
                             forceDisconnected
                             (currentRetryCount disconnected)) new) /\
  (exists new,
      calls (delivered connected) = calls connected ++ new /\
      In (onDisconnectCalled 8 (Some 135%Z) (options connected)
                             autoDisconnected
                             (currentRetryCount connected)) new).
Proof.
  intros set connecting disconnected connected delivered.
  assert (reachable events newSession) as Hr
    by (exists "c1", "broker", 1883%Z, (Some autoReconnectOptions), [];
        reflexivity).
  assert (CONNECTED_EVENT events <> DISCONNECTED_EVENT events) as Hne
    by discriminate.
  split; [exact Hr | split; [exact Hne|]].
  split; [|split].
  - destruct (disconnect_event_classified
                events newSession (throwing 7) 8 [Connect None]
                (ackOf (Some 135%Z)) Hr Hne eq_refl eq_refl)
      as (new & E & Hc & _).
    destruct Hc as (A & B & _ & D); [vm_compute; reflexivity|].
    exists new; split; [exact E|].
    split; [exact A | split; [apply B; reflexivity | exact D]].
  - destruct (disconnect_event_classified
                events newSession (throwing 7) 8 [Connect None; Disconnect]
                (ackOf (Some 135%Z)) Hr Hne eq_refl eq_refl)
      as (new & E & _ & Hd & _).
    destruct Hd as (A & _); [vm_compute; reflexivity|].
    exists new; split; [exact E | exact A].
  - destruct (disconnect_event_classified
                events newSession (throwing 7) 8
                [Connect None; Emit "c1connected" (ackOf (Some 0%Z))]
                (ackOf (Some 135%Z)) Hr Hne eq_refl eq_refl)
      as (new & E & _ & _ & Hc).
    destruct Hc as (A & _); [vm_compute; reflexivity|].
    exists new; split; [exact E | exact A].
Defined.

(** ** Reconnecting after a drop, with the listener's registration *)

(** C1, as the code has it.  A session constructed with [autoReconnect]
    on keeps its auto-reconnect listener until it is removed.  A
    disconnect event with reason code X that finds the session CONNECTED
    has the interceptor, if one is set, called with the reason code stored
    before the event, which is [undefined] in every such state since the
    connected handler cleared it, and with nothing else; X is not stored
    yet and the status stays CONNECTED until the interceptor's promise
    resolves.  From then on, in whatever state that happens and whatever
    the retry count and its bound are, [connect] runs on what the
    interceptor returned ([undefined] without an interceptor): every
    property of the returned options replaces the session's, every other
    property of the session's options is kept, [connectMqtt] is called
    with values read from the merged options, and X is stored as the last
    reason code. *)
Theorem autoReconnect_asks_with_stored_code :
  forall (EV : MQTT_EVENTS) (l : list Action) (cid hst : string) (prt : Z)
         (o : option MqttOptions) (ack : Ack),
    hst <> "" ->
    opt o autoReconnect = Some true ->
    forallb (spares 1) l = true ->
    CONNECTED_EVENT EV <> DISCONNECTED_EVENT EV ->
    let w := run EV l (constructor EV [] cid hst prt o) in
    connectionStatus w = CONNECTED ->
    let w1 := emit (cid ++ DISCONNECTED_EVENT EV)%string ack w in
    let returned :=
      match onReconnectIntercepter w with
      | Some f => f None
      | None => None
      end in
    mqtt5DisconnectReasonCode w = None /\
    (exists new,
        calls w1 = calls w ++ new /\
        (onReconnectIntercepter w <> None ->
         In (onReconnectIntercepterCalled None) new) /\
        forall x, In (onReconnectIntercepterCalled x) new ->
                  x = None /\ onReconnectIntercepter w <> None) /\
    In (thenConnect returned (reasonCode ack)) (awaiting w1) /\
    connectionStatus w1 = CONNECTED /\
    mqtt5DisconnectReasonCode w1 = None /\
    native w1 = native w /\
    forall w2 : World,
      let w3 := continue (thenConnect returned (reasonCode ack)) w2 in
      mergedInto (options w2) returned (options w3) /\
      currentRetryCount w3 = 0 /\
      connectionStatus w3 = CONNECTING /\
      mqtt5DisconnectReasonCode w3 = reasonCode ack /\
      native w3
      = native w2
        ++ [connectMqtt (clientId w2)
              (or truthy_num (opt (options w3) keepAlive) 60%Z)
              (or truthy_str (opt (options w3) username) "")
              (or truthy_str (opt (options w3) password) "")
              true].
Proof.
  intros EV l cid hst prt o ack Hh Ha Hl Hne w Hs w1 returned.
  assert (reachable EV w) as Hr by (exists cid, hst, prt, o, l; reflexivity).
  pose proof (autoReconnectHandler_stays EV l cid hst prt o Hh Ha Hl) as Hin.
  cbv zeta in Hin; fold w in Hin.
  assert (clientId w = cid) as Ec
    by (unfold w; now rewrite run_clientId, constructor_clientId).
  rewrite Ec in Hin.
  pose proof (inv_code EV w (Inv_reachable EV w Hr) Hs) as Hcode.
  pose proof (no_connectedHandler_on_disconnected EV w Hr Hne) as Hno.
  rewrite Ec in Hno.
  destruct (handlers_told _ ack w w Hno (sameView_refl w))
    as (E & A & (V1 & _ & _ & _ & V5)).
  destruct (handlers_frame
              (EventEmitter.listeners
                 (cid ++ DISCONNECTED_EVENT EV)%string (eventEmitter w))
              ack w) as (_ & _ & N & _).
  fold (emit (cid ++ DISCONNECTED_EVENT EV)%string ack w) in E, A, V1, V5, N.
  fold w1 in E, A, V1, V5, N.
  clearbody w w1.
  split; [exact Hcode|].
  split; [|split; [|split; [|split; [|split]]]].
  - eexists; split; [exact E|]; split.
    + intros Hf.
      apply in_flat_map; exists (tryCatch (DEFAULT EV) autoReconnectHandler).
      split; [exact Hin|].
      cbn [told]; rewrite Hs, Hcode.
      destruct (onReconnectIntercepter w); [now left | contradiction].
    + intros x Hx; apply in_flat_map in Hx as (h & _ & Hx).
      destruct (onReconnectIntercepter w) eqn:Hf;
        destruct h as [| | | | |d [|cb|cb]]; cbn [told] in Hx;
        rewrite ?Hs, ?Hf in Hx; simpl in Hx;
        repeat match goal with
               | H : context [throwsOn ?cb ?c] |- _ =>
                   destruct (throwsOn cb c); simpl in H
               | H : _ \/ _ |- _ => destruct H
               | H : False |- _ => destruct H
               end;
        try discriminate.
      split; [congruence | discriminate].
  - rewrite A; apply in_or_app; right.
    apply in_flat_map; exists (tryCatch (DEFAULT EV) autoReconnectHandler).
    split; [exact Hin|].
    unfold deferred; rewrite Hs, Hcode; now left.
  - congruence.
  - rewrite V5 by exact Hs; exact Hcode.
  - exact N.
  - intros w2 w3.
    destruct (continue_thenConnect returned (reasonCode ack) w2)
      as (O & K & S & R & C).
    fold w3 in O, K, S, R, C.
    split; [rewrite O; apply resetOptions_mergedInto|].
    repeat split; auto.
Qed.

Lemma autoReconnect_asks_with_stored_code_witness :
  let w1 := emit "c1disconnected" (ackOf (Some 135%Z)) refreshingSession in
  let w3 := resume 0 w1 in
  "broker" <> "" /\
  connectionStatus refreshingSession = CONNECTED /\
  opt (options refreshingSession) username = Some "bob" /\
  calls w1 = calls refreshingSession ++ [onReconnectIntercepterCalled None] /\
  awaiting w1 = [thenConnect (Some freshCredentials) (Some 135%Z)] /\
  (exists new,
      calls w1 = calls refreshingSession ++ new /\
      In (onReconnectIntercepterCalled None) new) /\
  (exists merged,
      options w3 = Some merged /\
      shallowMerge
        (match options w1 with Some old => old | None => noOptions end)
        freshCredentials merged) /\
  opt (options w3) keepAlive = Some 30%Z /\
  native w3 = native w1 ++ [connectMqtt "c1" 30%Z "alice" "secret" true].
Proof.
  intros w1 w3.
  assert ("broker" <> "") as Hh by discriminate.
  destruct (autoReconnect_asks_with_stored_code
              events
              [SetOnReconnectIntercepter (fun _ => Some freshCredentials);
               Connect (Some {| keepAlive := Val 30%Z; username := Val "bob";
                                password := Absent; cleanSession := Absent;
                                autoReconnect := Absent; retryCount := Absent;
                                backoffTime := Absent;
                                maxBackoffTime := Absent;
                                jitter := Absent;
                                enableSslConfig := Absent |});
               Emit "c1connected" (ackOf (Some 0%Z))]
              "c1" "broker" 1883%Z (Some autoReconnectOptions)
              (ackOf (Some 135%Z)) Hh eq_refl eq_refl)
    as (_ & (new & E & I & _) & _ & _ & _ & _ & F);
    [discriminate | vm_compute; reflexivity |].
  destruct (F (set_awaiting [] w1)) as (M & _).
  split; [exact Hh|].
  split; [vm_compute; reflexivity|].
  split; [vm_compute; reflexivity|].
  split; [vm_compute; reflexivity|].
  split; [vm_compute; reflexivity|].
  split; [exists new; split; [exact E | apply I; discriminate]|].
  split; [vm_compute in M; vm_compute; exact M|].
  split; vm_compute; reflexivity.
Defined.


(** * Further properties of the class *)

(** ** Merging options *)

Lemma spread_assoc {T} (a b c : field T) :
  spread (spread a b) c = spread a (spread b c).
Proof. destruct c, b; reflexivity. Qed.

Lemma spread_idem {T} (a b : field T) : spread (spread a b) b = spread a b.
Proof. destruct b; reflexivity. Qed.

Lemma spreadOptions_assoc (a b c : MqttOptions) :
  spreadOptions (spreadOptions a b) c = spreadOptions a (spreadOptions b c).
Proof.
  unfold spreadOptions; simpl; now rewrite !spread_assoc.
Qed.

Lemma spreadOptions_noOptions (a : MqttOptions) :
  spreadOptions noOptions a = a.
Proof.
  assert (forall T (x : field T), spread Absent x = x) as E
    by (intros T x; destruct x; reflexivity).
  destruct a; unfold spreadOptions; simpl; now rewrite !E.
Qed.

(** X1.  [resetOptions] touches the options only; without an override it
    changes nothing; with an override [a] every property [a] has is
    [a]'s afterwards and every property it leaves out keeps the value it
    had (none, when the session had no options); a second override [b]
    wins over [a] in the same way, and the two in a row are one
    [resetOptions({...a, ...b})]; merging the same override twice is
    merging it once. *)
Theorem resetOptions_composes :
  forall (a b : MqttOptions) (w : World),
    resetOptions None w = w /\
    resetOptions (Some a) w
    = set_options (options (resetOptions (Some a) w)) w /\
    (exists merged,
        options (resetOptions (Some a) w) = Some merged /\
        shallowMerge
          (match options w with Some old => old | None => noOptions end)
          a merged) /\
    (exists merged twice,
        options (resetOptions (Some a) w) = Some merged /\
        options (resetOptions (Some b) (resetOptions (Some a) w))
        = Some twice /\
        shallowMerge merged b twice) /\
    resetOptions (Some b) (resetOptions (Some a) w)
    = resetOptions (Some (spreadOptions a b)) w /\
    resetOptions (Some a) (resetOptions (Some a) w)
    = resetOptions (Some a) w.
Proof.
  intros a b w.
  split; [reflexivity|].
  split; [reflexivity|].
  split; [exact (resetOptions_mergedInto (Some a) w)|].
  split.
  - destruct (resetOptions_mergedInto (Some a) w) as (m & E & _).
    destruct (resetOptions_mergedInto (Some b) (resetOptions (Some a) w))
      as (m2 & E2 & M2).
    rewrite E in M2.
    exists m, m2; auto.
  - split; unfold resetOptions; destruct w as [? ? ? o]; simpl;
      unfold set_options; simpl; f_equal; f_equal.
    + now destruct o; rewrite spreadOptions_assoc.
    + destruct o; unfold spreadOptions; simpl; now rewrite !spread_idem.
Qed.

(** ** What the native layer is asked *)

Lemma keepAlive_not_zero (a : option Z) :
  negb (or truthy_num a 60 =? 0)%Z = true.
Proof.
  destruct a as [z|]; simpl; auto.
  unfold truthy_num; destruct (Z.eqb_spec z 0) as [->|H]; simpl; auto.
  now apply negb_true_iff, Z.eqb_neq.
Qed.

Lemma fire_frame (h : nat) (status : CONNECTION_STATE) (w : World) :
  let w' := fire h status w in
  native w' = native w /\ tag w' = tag w /\
  connectionStatus w' = connectionStatus w /\
  List.length (timers w') = List.length (timers w) /\
  clientId w' = clientId w /\ retryTimer w' = retryTimer w /\
  eventEmitter w' = eventEmitter w /\
  exists extra,
    awaiting w' = awaiting w ++ extra /\ onlyRetries extra = true.
Proof.
  unfold fire.
  destruct (nth_error (timers w) h) as [t|];
    [destruct (pending t)|];
    try (repeat split; exists []; now rewrite app_nil_r).
  unfold retryCallback, askIntercepter; cbn [onReconnectIntercepter
    set_currentRetryCount set_timers mqtt5DisconnectReasonCode].
  destruct (negb _).
  - destruct (onReconnectIntercepter w); simpl; rewrite cancel_length;
      repeat split; eexists [_]; split; reflexivity.
  - simpl; rewrite cancel_length; repeat split.
    exists []; now rewrite app_nil_r.
Qed.

(** What a resumed callback asks of the native layer. *)
Lemma continue_native (k : Continuation) (w : World) :
  exists l,
    native (continue k w) = native w ++ l /\
    forallb (sessionCall (clientId w)) l = true /\
    subscribed l = [] /\ tag (continue k w) = tag w.
Proof.
  assert (forall v : World,
             exists l, native (connection v) = native v ++ l /\
                       forallb (sessionCall (clientId v)) l = true /\
                       subscribed l = []) as Hc.
  { intros v; destruct (connectionStatus v) eqn:Es.
    - exists []; rewrite connection_idle, app_nil_r by congruence; auto.
    - eexists; split; [apply connection_native, Es|].
      simpl; now rewrite String.eqb_refl, keepAlive_not_zero.
    - exists []; rewrite connection_idle, app_nil_r by congruence; auto. }
  destruct k as [o c|o]; simpl.
  - destruct (Hc (resetOptions o (resetConnectVariables w)))
      as (l & E & F & S).
    exists l; unfold connect; simpl; rewrite E.
    destruct (connection_frame (resetOptions o (resetConnectVariables w)))
      as (_ & _ & _ & _ & _ & _ & _ & _ & T & _).
    rewrite T; destruct o; auto.
  - destruct (Hc (resetOptions o w)) as (l & E & F & S).
    exists l; rewrite E.
    destruct (connection_frame (resetOptions o w))
      as (_ & _ & _ & _ & _ & _ & _ & _ & T & _).
    rewrite T; destruct o; auto.
Qed.

(** One action: the calls it adds are the session's own, and only
    [subscribe] adds a subscription and moves the tag. *)
Lemma step_native (EV : MQTT_EVENTS) (a : Action) (w : World) :
  exists l,
    native (step EV w a) = native w ++ l /\
    forallb (sessionCall (clientId w)) l = true /\
    subscribed l
    = match a with
      | Subscribe topic qos _ _ _ =>
          [eventIdOf (clientId w) topic (nullish qos 1) (S (tag w))]
      | _ => []
      end /\
    tag (step EV w a)
    = match a with
      | Subscribe _ _ _ _ _ => S (tag w)
      | _ => tag w
      end.
Proof.
  destruct a as [o| | |topic qos on os oe|s|f|cb|cb|cb|token|k ack|h st|n];
    cbn [step];
    try (exists []; rewrite app_nil_r; repeat split; fail).
  - destruct (continue_native (thenConnect o None) w) as (l & E & F & S & T).
    exists l; simpl in E, T; auto.
  - eexists [_]; repeat split; simpl; now rewrite String.eqb_refl.
  - eexists [_]; repeat split; simpl; now rewrite String.eqb_refl.
  - rewrite subscribe_spec, getMqttSubscribeEventId_spec.
    eexists [_]; repeat split; simpl; now rewrite String.eqb_refl.
  - unfold emit.
    destruct (handlers_frame (EventEmitter.listeners k (eventEmitter w)) ack w)
      as (_ & _ & N & _ & _ & T & _).
    exists []; rewrite app_nil_r; auto.
  - destruct (fire_frame h st w) as (N & T & _).
    exists []; rewrite app_nil_r; auto.
  - unfold resume; destruct (nth_error (awaiting w) n) as [k|];
      [|exists []; rewrite app_nil_r; auto].
    destruct (continue_native k (set_awaiting (drop n (awaiting w)) w))
      as (l & E & F & S & T).
    exists l; auto.
Qed.

Lemma run_native (EV : MQTT_EVENTS) (l : list Action) (w : World) :
  exists rest,
    native (run EV l w) = native w ++ rest /\
    forallb (sessionCall (clientId w)) rest = true.
Proof.
  revert w; induction l as [|a l IH]; intros w; simpl.
  - exists []; now rewrite app_nil_r.
  - destruct (IH (step EV w a)) as (r2 & E2 & F2).
    destruct (step_native EV a w) as (r1 & E1 & F1 & _).
    exists (r1 ++ r2); rewrite E2, E1, <- app_assoc; split; auto.
    rewrite forallb_app, F1; rewrite step_clientId in F2; auto.
Qed.

(** X2.  What a session ever asks of the native layer: [createMqtt] once,
    first, and only when the host is not empty; after that only calls for
    its own client identifier, never another [createMqtt] and never
    [unsubscribeMqtt]; and every [connectMqtt] carries a keep-alive that is
    not 0 (a configured 0 is replaced by 60) and [cleanSession = true]. *)
Theorem native_calls_are_the_sessions_own :
  forall (EV : MQTT_EVENTS) (e : EventEmitter.t) (l : list Action)
         (cid hst : string) (prt : Z) (o : option MqttOptions),
    let w0 := constructor EV e cid hst prt o in
    native w0
    = (if (hst =? "")%string then []
       else [createMqtt cid hst prt (nullish (opt o enableSslConfig) false)])
    /\
    exists rest,
      native (run EV l w0) = native w0 ++ rest /\
      forallb (sessionCall cid) rest = true.
Proof.
  intros EV e l cid hst prt o w0; split.
  - unfold w0, constructor, truthy_str.
    destruct (hst =? "")%string; simpl; auto.
    destruct (or truthy_bool _ false); reflexivity.
  - destruct (run_native EV l w0) as (rest & E & F).
    exists rest; split; auto.
    unfold w0 in F; now rewrite constructor_clientId in F.
Qed.

(** ** Identifiers of subscriptions *)

Lemma string_app_assoc (a b c : string) :
  ((a ++ b) ++ c)%string = (a ++ (b ++ c))%string.
Proof. induction a as [|x a IH]; simpl; congruence. Qed.

Lemma hasHash_show (n : nat) : hasHash (show n) = false.
Proof.
  unfold show; induction (Nat.to_uint n); simpl; auto.
Qed.

Lemma hasHash_app (x y : string) :
  hasHash (x ++ String "#" y) = true.
Proof.
  induction x as [|c x IH]; [reflexivity|].
  simpl; rewrite IH; apply orb_true_r.
Qed.

(** The part after the last [#] is read off the whole. *)
Lemma last_segment (a b s t : string) :
  hasHash s = false -> hasHash t = false ->
  (a ++ String "#" s)%string = (b ++ String "#" t)%string -> s = t.
Proof.
  intros Hs Ht; revert b; induction a as [|c a IH]; intros [|c' b] H;
    simpl in H.
  - now injection H.
  - injection H as _ H; subst; rewrite hasHash_app in Hs; discriminate.
  - injection H as _ H; subst; rewrite hasHash_app in Ht; discriminate.
  - injection H as _ H; eauto.
Qed.

Lemma eventIdOf_tag_inj (cid topic topic' : string) (qos qos' : MqttQos)
      (k k' : nat) :
  eventIdOf cid topic qos k = eventIdOf cid topic' qos' k' -> k = k'.
Proof.
  intros H; apply show_inj.
  assert (forall t q n,
             eventIdOf cid t q n
             = (("mqtt_client#" ++ cid ++ "#subscribe_mqtt#" ++ t ++ "#"
                   ++ show q) ++ String "#" (show n))%string) as E.
  { intros t q n; unfold eventIdOf.
    rewrite (string_app_assoc "mqtt_client#"), (string_app_assoc cid),
      (string_app_assoc "#subscribe_mqtt#"), (string_app_assoc t),
      (string_app_assoc "#").
    reflexivity. }
  rewrite !E in H.
  eapply last_segment; eauto using hasHash_show.
Qed.

Lemma Forall2_NoDup {A B} (R : A -> B -> Prop) (l : list A) (ks : list B) :
  (forall x k k', R x k -> R x k' -> k = k') ->
  Forall2 R l ks -> NoDup ks -> NoDup l.
Proof.
  intros Hinj H; induction H as [|x k l ks Hr Hf IH]; intros Hn.
  - constructor.
  - inversion Hn as [|? ? Hk Hn']; subst.
    constructor; auto.
    intros Hin; apply Hk.
    clear IH Hn Hn' Hk.
    induction Hf as [|y k2 l ks Hy Hf IH2]; [destruct Hin|].
    destruct Hin as [->|Hin].
    + left; eauto.
    + right; auto.
Qed.

Lemma run_subscribed (EV : MQTT_EVENTS) (l : list Action) (w : World) :
  Forall2 (fun id k => exists topic qos, id = eventIdOf (clientId w) topic qos k)
          (subscribed (native w)) (seq 1 (tag w)) ->
  Forall2 (fun id k => exists topic qos, id = eventIdOf (clientId w) topic qos k)
          (subscribed (native (run EV l w))) (seq 1 (tag (run EV l w))).
Proof.
  revert w; induction l as [|a l IH]; intros w H; simpl; auto.
  rewrite <- (step_clientId EV a w).
  apply IH; rewrite step_clientId.
  destruct (step_native EV a w) as (r & E & _ & S & T).
  assert (subscribed (native w ++ r)
          = subscribed (native w) ++ subscribed r) as A
    by apply flat_map_app.
  rewrite E, A, T, S.
  destruct a; rewrite ?app_nil_r; auto.
  rewrite seq_S; apply Forall2_app; auto.
  constructor; [eauto | constructor].
Qed.

(** X3.  In one session the identifiers handed to [subscribeMqtt] are
    pairwise distinct, whatever the topics and QoS levels (a topic may
    itself contain [#]) and whatever else happens in between: the [k]-th
    [subscribe] of the session gets an identifier ending in [#k], and the
    session's tag counts the subscriptions made. *)
Theorem subscription_identifiers_unique :
  forall (EV : MQTT_EVENTS) (e : EventEmitter.t) (l : list Action)
         (cid hst : string) (prt : Z) (o : option MqttOptions),
    let w := run EV l (constructor EV e cid hst prt o) in
    NoDup (subscribed (native w)) /\
    List.length (subscribed (native w)) = tag w /\
    Forall2 (fun id k => exists topic qos, id = eventIdOf cid topic qos k)
            (subscribed (native w)) (seq 1 (tag w)).
Proof.
  intros EV e l cid hst prt o w.
  assert (Forall2
            (fun id k => exists topic qos, id = eventIdOf cid topic qos k)
            (subscribed (native w)) (seq 1 (tag w))) as H.
  { pose proof (run_subscribed EV l (constructor EV e cid hst prt o)) as H.
    rewrite constructor_clientId in H; apply H.
    unfold constructor; destruct (negb _); [constructor|].
    destruct (or truthy_bool _ false); constructor. }
  split; [|split]; auto.
  - eapply Forall2_NoDup; [| exact H | apply seq_NoDup].
    intros x k k' (t & q & ->) (t' & q' & E).
    eapply eventIdOf_tag_inj; eauto.
  - apply Forall2_length in H; now rewrite length_seq in H.
Qed.

(** ** The retry chain *)

Lemma cancel_app (l r : list Timer) (j : nat) :
  cancel (List.length l + j) (l ++ r) = l ++ cancel j r.
Proof. induction l as [|t l IH]; simpl; congruence. Qed.

Lemma retry_condition (n k : nat) :
  (truthy_num (Z.of_nat n) && (Z.of_nat k <? Z.of_nat n)%Z)%bool
  = (k <? n)%nat.
Proof.
  unfold truthy_num.
  destruct (Nat.ltb_spec k n) as [H|H].
  - destruct (Z.eqb_spec (Z.of_nat n) 0); [lia|].
    destruct (Z.ltb_spec (Z.of_nat k) (Z.of_nat n)); [reflexivity | lia].
  - destruct (Z.ltb_spec (Z.of_nat k) (Z.of_nat n)); [lia|].
    apply andb_false_r.
Qed.

Lemma retryTimers_length (b c : Z) (k : nat) :
  List.length (map (retryTimerOf b c false) (seq 0 k)) = k.
Proof. now rewrite length_map, length_seq. Qed.

Lemma retryTimers_S (b c : Z) (k : nat) :
  map (retryTimerOf b c false) (seq 0 (S k))
  = map (retryTimerOf b c false) (seq 0 k) ++ [retryTimerOf b c false k].
Proof. now rewrite seq_S, map_app. Qed.

(** [connection] while CONNECTING, with the retry options and no live
    timer but perhaps the one the handle names. *)
Lemma connection_retrying (n : nat) (b c : Z) (w : World) :
  connectionStatus w = CONNECTING ->
  options w = Some (retryOptions (Z.of_nat n) b c) ->
  timers (clearTimeout (retryTimer w) w) = timers w ->
  let k := currentRetryCount w in
  let w' := connection w in
  native w' = native w ++ [connectMqtt (clientId w) 60%Z "" "" true] /\
  timers w'
  = timers w ++ (if (k <? n)%nat
                 then [{| base := Some b; attempt := Z.of_nat k;
                          cap := Some c; useJitter := Some false;
                          pending := true |}]
                 else []) /\
  ((k <? n)%nat = true -> retryTimer w' = Some (List.length (timers w))).
Proof.
  intros Hs Ho Ht k w'; subst k w'.
  destruct w as [cid hst prt o rt cnt rc tg st f ee tm aw nt cl].
  cbn [connectionStatus options timers retryTimer clientId native
       currentRetryCount] in *.
  subst st o.
  unfold connection.
  destruct rt as [h|];
    cbn -[truthy_num Z.of_nat Z.ltb Nat.ltb] in *;
    rewrite ?Ht, retry_condition;
    destruct (cnt <? n)%nat;
    cbn -[truthy_num Z.of_nat Z.ltb Nat.ltb];
    rewrite ?Ht, ?app_nil_r;
    repeat split; auto; discriminate.
Qed.

Lemma retrying_start (n : nat) (b c : Z) (w0 : World) :
  options w0 = Some (retryOptions (Z.of_nat n) b c) ->
  onReconnectIntercepter w0 = None ->
  awaiting w0 = [] ->
  timers w0 = [] ->
  Retrying w0 n b c 0 (connect None w0).
Proof.
  intros Ho Hi Ha Ht.
  set (v := resetConnectVariables w0).
  assert (timers (clearTimeout (retryTimer v) v) = timers v) as Hc.
  { unfold v; simpl; destruct (retryTimer w0); simpl; rewrite Ht; auto.
    now destruct n0. }
  destruct (connection_retrying n b c v eq_refl Ho Hc) as (N & T & H).
  destruct (connection_frame v) as (C & O & K & _ & S & _ & A & _ & _ & I).
  change (connect None w0) with (connection v).
  constructor.
  - rewrite S; reflexivity.
  - rewrite K; reflexivity.
  - rewrite O; exact Ho.
  - rewrite I; exact Hi.
  - rewrite A; exact Ha.
  - rewrite N; reflexivity.
  - rewrite T.
    change (timers v) with (timers w0); rewrite Ht; reflexivity.
  - intros Hlt; rewrite H.
    + change (timers v) with (timers w0); now rewrite Ht.
    + now apply Nat.ltb_lt.
  - rewrite C; reflexivity.
Qed.

Lemma retrying_round (w0 : World) (n : nat) (b c : Z) (k : nat)
      (s : CONNECTION_STATE) (w : World) :
  Retrying w0 n b c k w ->
  k < n ->
  s <> CONNECTED ->
  Retrying w0 n b c (S k) (resume 0 (fire k s w)).
Proof.
  intros R Hlt Hs.
  pose proof (retrying_timers _ _ _ _ _ _ R) as Ht.
  rewrite (proj2 (Nat.ltb_lt k n) Hlt) in Ht.
  assert (nth_error (timers w) k = Some (retryTimerOf b c true k)) as Hn.
  { rewrite Ht, nth_error_app2, retryTimers_length, Nat.sub_diag
      by (rewrite retryTimers_length; lia).
    reflexivity. }
  assert (cancel k (timers w) = map (retryTimerOf b c false) (seq 0 (S k)))
    as Hk.
  { rewrite Ht, retryTimers_S.
    rewrite <- (retryTimers_length b c k) at 1.
    rewrite <- (Nat.add_0_r (List.length _)), cancel_app; reflexivity. }
  set (v := set_awaiting []
              (set_currentRetryCount (S k)
                 (set_timers (cancel k (timers w)) w))).
  assert (resume 0 (fire k s w) = connection v) as E.
  { unfold fire; rewrite Hn; cbn [pending retryTimerOf].
    unfold retryCallback.
    assert (negb (CONNECTION_STATE_eqb s CONNECTED) = true) as ->
      by (destruct s; auto; contradiction).
    unfold askIntercepter; cbn [onReconnectIntercepter set_currentRetryCount
                                  set_timers].
    rewrite (retrying_intercepter _ _ _ _ _ _ R).
    unfold resume; cbn [awaiting suspend set_awaiting set_currentRetryCount
                          set_timers].
    rewrite (retrying_awaiting _ _ _ _ _ _ R).
    cbn [currentRetryCount set_timers].
    rewrite (retrying_count _ _ _ _ _ _ R).
    reflexivity. }
  rewrite E.
  assert (timers (clearTimeout (retryTimer v) v) = timers v) as Hc.
  { unfold v; cbn [retryTimer set_awaiting set_currentRetryCount set_timers].
    rewrite (retrying_handle _ _ _ _ _ _ R Hlt).
    cbn [clearTimeout timers set_timers set_awaiting set_currentRetryCount].
    rewrite Hk, retryTimers_S.
    rewrite <- (retryTimers_length b c k) at 1.
    rewrite <- (Nat.add_0_r (List.length _)), cancel_app; reflexivity. }
  destruct (connection_retrying n b c v (retrying_status _ _ _ _ _ _ R)
              (retrying_options _ _ _ _ _ _ R) Hc) as (N & T & H).
  destruct (connection_frame v) as (C & O & K & _ & St & _ & A & _ & _ & I).
  destruct R as [R1 R2 R3 R4 R5 R6 R7 R8 R9].
  constructor.
  - rewrite St; exact R1.
  - rewrite K; reflexivity.
  - rewrite O; exact R3.
  - rewrite I; exact R4.
  - rewrite A; reflexivity.
  - rewrite N; unfold v; cbn [native clientId set_awaiting
                                set_currentRetryCount set_timers].
    rewrite R6, R9, <- app_assoc; f_equal.
    symmetry; apply (repeat_cons (S k)).
  - rewrite T; unfold v; cbn [timers currentRetryCount set_awaiting
                                set_currentRetryCount set_timers].
    rewrite Hk; reflexivity.
  - intros Hlt'; rewrite H.
    + unfold v; cbn [timers set_awaiting set_currentRetryCount set_timers].
      now rewrite Hk, retryTimers_length.
    + unfold v; cbn [currentRetryCount set_awaiting set_currentRetryCount].
      now apply Nat.ltb_lt.
  - rewrite C; exact R9.
Qed.

Lemma retrying_rounds (EV : MQTT_EVENTS) (w0 : World) (n : nat) (b c : Z)
      (status : nat -> CONNECTION_STATE) (k : nat) (w : World) :
  Retrying w0 n b c 0 w ->
  (forall i, status i <> CONNECTED) ->
  k <= n ->
  Retrying w0 n b c k
           (run EV (flat_map (fun i => [Fire i (status i); Resume 0])
                             (seq 0 k)) w).
Proof.
  intros R Hs; induction k as [|k IH]; intros Hk; [exact R|].
  rewrite seq_S, flat_map_app, run_app; simpl.
  apply retrying_round; auto.
  apply IH; lia.
Qed.

Lemma spent_not_pending (b c : Z) (l : list nat) :
  pendingTimers (map (retryTimerOf b c false) l) = [].
Proof. induction l; simpl; auto. Qed.

(** X4.  The retry chain for any retry count: with [retryCount = n], a
    base, a cap and jitter off, no interceptor, and a native layer that
    never reports CONNECTED, [connect] followed by the timers firing one
    after the other calls [connectMqtt] exactly [n + 1] times and
    schedules exactly [n] timers; timer number [k] (from 0) is scheduled
    with attempt [k]; after the last one the retry count is [n], no timer
    is pending and nothing is suspended, while the status is still
    CONNECTING. *)
Theorem retry_chain_has_retryCount_timers :
  forall (EV : MQTT_EVENTS) (e : EventEmitter.t) (cid hst : string)
         (prt : Z) (n : nat) (b c : Z) (status : nat -> CONNECTION_STATE),
    (forall i, status i <> CONNECTED) ->
    let w0 :=
      constructor EV e cid hst prt (Some (retryOptions (Z.of_nat n) b c)) in
    let w := run EV (neverConfirmed status n) w0 in
    timers w = map (retryTimerOf b c false) (seq 0 n) /\
    map attempt (timers w) = map Z.of_nat (seq 0 n) /\
    pendingTimers (timers w) = [] /\
    currentRetryCount w = n /\
    native w = native w0 ++ repeat (connectMqtt cid 60%Z "" "" true) (S n) /\
    connectionStatus w = CONNECTING /\
    awaiting w = [].
Proof.
  intros EV e cid hst prt n b c status Hs w0 w.
  assert (Retrying w0 n b c 0 (connect None w0)) as R0.
  { apply retrying_start; unfold w0, constructor;
      destruct (negb _); reflexivity. }
  pose proof (retrying_rounds EV w0 n b c status n _ R0 Hs (Nat.le_refl n))
    as [R1 R2 R3 R4 R5 R6 R7 R8 R9].
  change (run EV (flat_map (fun i => [Fire i (status i); Resume 0]) (seq 0 n))
              (connect None w0)) with w in *.
  rewrite Nat.ltb_irrefl, app_nil_r in R7.
  assert (clientId w0 = cid) as Ec by apply constructor_clientId.
  repeat split; auto.
  - rewrite R7, map_map; reflexivity.
  - rewrite R7; apply spent_not_pending.
  - now rewrite R6, Ec.
Qed.

Lemma retry_chain_has_retryCount_timers_witness :
  (forall i : nat, (fun _ : nat => CONNECTING) i <> CONNECTED) /\
  currentRetryCount
    (run events (neverConfirmed (fun _ => CONNECTING) 5)
         (constructor events [] "c1" "broker" 1883%Z
                      (Some (retryOptions (Z.of_nat 5) 100 10000)))) = 5.
Proof.
  assert (forall i : nat, (fun _ : nat => CONNECTING) i <> CONNECTED) as H
    by (intros i; discriminate).
  split; [exact H|].
  exact (proj1 (proj2 (proj2 (proj2
           (retry_chain_has_retryCount_timers
              events [] "c1" "broker" 1883%Z 5 100%Z 10000%Z
              (fun _ => CONNECTING) H))))).
Defined.

(** ** Retries when the session is not connecting *)

Lemma onlyRetries_drop (n : nat) (l : list Continuation) :
  onlyRetries l = true -> onlyRetries (drop n l) = true.
Proof.
  revert n; induction l as [|k l IH]; intros [|n] H; simpl in *; auto.
  - now apply andb_prop in H as [_ H].
  - apply andb_prop in H as [H1 H2]; rewrite H1; simpl; auto.
Qed.

Lemma timerAction_idle (EV : MQTT_EVENTS) (a : Action) (w : World) :
  connectionStatus w <> CONNECTING ->
  onlyRetries (awaiting w) = true ->
  timerAction a = true ->
  let w' := step EV w a in
  native w' = native w /\
  connectionStatus w' = connectionStatus w /\
  List.length (timers w') = List.length (timers w) /\
  eventEmitter w' = eventEmitter w /\
  onlyRetries (awaiting w') = true.
Proof.
  intros Hs Ho Ha.
  destruct a as [o| | |topic qos on os oe|s|f|cb|cb|cb|token|k ack|h st|n];
    try discriminate; cbn [step].
  - destruct (fire_frame h st w) as (N & _ & S & L & _ & _ & E & x & A & Hx).
    repeat split; auto.
    unfold onlyRetries in *; now rewrite A, forallb_app, Ho, Hx.
  - unfold resume.
    destruct (nth_error (awaiting w) n) as [k|] eqn:En; [|repeat split; auto].
    assert (exists o, k = thenRetry o) as (o & ->).
    { apply nth_error_In in En.
      unfold onlyRetries in Ho; rewrite forallb_forall in Ho.
      specialize (Ho k En); destruct k; [discriminate | eauto]. }
    cbn [continue].
    rewrite connection_idle by (now destruct o).
    destruct o; repeat split; auto; now apply onlyRetries_drop.
Qed.

(** X5.  Once the session is not CONNECTING (after [disconnect()], or
    after a CONNECTED event) and no auto-reconnect is suspended, the retry
    chain is over: however many timers fire and retry callbacks resume,
    whatever the native layer reports, nothing more is asked of the native
    layer, no timer is scheduled, and the status and the emitter stay as
    they are. *)
Theorem retries_end_when_not_connecting :
  forall (EV : MQTT_EVENTS) (l : list Action) (w : World),
    connectionStatus w <> CONNECTING ->
    onlyRetries (awaiting w) = true ->
    forallb timerAction l = true ->
    let w' := run EV l w in
    native w' = native w /\
    connectionStatus w' = connectionStatus w /\
    List.length (timers w') = List.length (timers w) /\
    eventEmitter w' = eventEmitter w.
Proof.
  intros EV l; induction l as [|a l IH]; intros w Hs Ho Hl; simpl in *.
  - repeat split.
  - apply andb_prop in Hl as [Ha Hl].
    destruct (timerAction_idle EV a w Hs Ho Ha) as (N & S & L & E & O).
    destruct (IH (step EV w a)) as (N' & S' & L' & E'); auto; [congruence|].
    repeat split; congruence.
Qed.

Lemma retries_end_when_not_connecting_witness :
  connectionStatus disconnectedSession <> CONNECTING /\
  native (run events [Fire 0 CONNECTING; Resume 0; Fire 0 DISCONNECTED]
              disconnectedSession)
  = native disconnectedSession.
Proof.
  assert (connectionStatus disconnectedSession <> CONNECTING) as H
    by discriminate.
  split; [exact H|].
  exact (proj1 (retries_end_when_not_connecting
                  events [Fire 0 CONNECTING; Resume 0; Fire 0 DISCONNECTED]
                  disconnectedSession H eq_refl eq_refl)).
Defined.

(** ** One retry *)

Lemma drop_last {A} (l : list A) (x : A) :
  drop (List.length l) (l ++ [x]) = l.
Proof. induction l as [|y l IH]; simpl; congruence. Qed.

Lemma nth_error_last {A} (l : list A) (x : A) :
  nth_error (l ++ [x]) (List.length l) = Some x.
Proof. induction l as [|y l IH]; simpl; auto. Qed.

(** A pending timer fires while the native layer is not connected, and the
    interceptor's promise resolves: what is left to do is [connection] on
    the merged options. *)
Lemma retry_round (h : nat) (s : CONNECTION_STATE) (w : World) :
  isPending (timers w) h ->
  s <> CONNECTED ->
  resume (List.length (awaiting w)) (fire h s w)
  = connection
      (resetOptions
         (fst (askIntercepter w))
         (set_calls (calls (snd (askIntercepter w)))
            (set_currentRetryCount (S (currentRetryCount w))
               (set_timers (cancel h (timers w)) w)))).
Proof.
  intros (t & Hn & Hp) Hs.
  unfold fire; rewrite Hn, Hp.
  unfold retryCallback.
  assert (negb (CONNECTION_STATE_eqb s CONNECTED) = true) as ->
    by (destruct s; auto; contradiction).
  unfold askIntercepter;
    cbn [onReconnectIntercepter mqtt5DisconnectReasonCode
         set_currentRetryCount set_timers].
  destruct (onReconnectIntercepter w) as [f|]; unfold resume;
    cbn [awaiting suspend record set_awaiting set_calls set_currentRetryCount
         set_timers];
    rewrite nth_error_last, drop_last; cbn [continue fst snd];
    f_equal; f_equal; destruct w; reflexivity.
Qed.

(** X6.  A retry with an interceptor: when a pending retry timer fires
    while the session is CONNECTING and the native layer is not connected,
    the interceptor is called once, with the stored reason code; when its
    promise resolves every property of the returned options has replaced
    the session's and every other property is kept, the retry count is
    one higher, and [connectMqtt] is called with the keep-alive, user name
    and password read from the merged options, so refreshed credentials
    are the ones sent. *)
Theorem retry_sends_intercepted_options :
  forall (h : nat) (s : CONNECTION_STATE) (w : World)
         (f : option Mqtt5ReasonCode -> option MqttOptions),
    connectionStatus w = CONNECTING ->
    isPending (timers w) h ->
    s <> CONNECTED ->
    onReconnectIntercepter w = Some f ->
    let new := f (mqtt5DisconnectReasonCode w) in
    let w' := resume (List.length (awaiting w)) (fire h s w) in
    calls w'
    = calls w ++ [onReconnectIntercepterCalled (mqtt5DisconnectReasonCode w)]
    /\
    mergedInto (options w) new (options w') /\
    currentRetryCount w' = S (currentRetryCount w) /\
    connectionStatus w' = CONNECTING /\
    awaiting w' = awaiting w /\
    native w'
    = native w
      ++ [connectMqtt (clientId w)
            (or truthy_num (opt (options w') keepAlive) 60%Z)
            (or truthy_str (opt (options w') username) "")
            (or truthy_str (opt (options w') password) "")
            true].
Proof.
  intros h s w f Hc Hp Hs Hf new w'.
  assert (options w' = options (resetOptions new w) /\
          calls w'
          = calls w
            ++ [onReconnectIntercepterCalled (mqtt5DisconnectReasonCode w)] /\
          currentRetryCount w' = S (currentRetryCount w) /\
          connectionStatus w' = CONNECTING /\
          awaiting w' = awaiting w /\
          native w'
          = native w
            ++ [connectMqtt (clientId w)
                  (or truthy_num (opt (options w') keepAlive) 60%Z)
                  (or truthy_str (opt (options w') username) "")
                  (or truthy_str (opt (options w') password) "")
                  true]) as (O & Rest).
  { unfold w'; rewrite (retry_round h s w Hp Hs).
    unfold askIntercepter; rewrite Hf; cbn [fst snd]; fold new.
    set (v := resetOptions new _).
    assert (connectionStatus v = CONNECTING) as Hv
      by (unfold v; destruct new; exact Hc).
    destruct (connection_frame v) as (_ & O & K & _ & S & _ & A & C & _).
    rewrite (connection_native v Hv), O, K, S, A, C.
    unfold v; destruct new; repeat split; auto. }
  destruct Rest as (C & K & S & A & N).
  split; [exact C|].
  split; [rewrite O; apply resetOptions_mergedInto|].
  repeat split; auto.
Qed.

Lemma retry_sends_intercepted_options_witness :
  let w' := resume (List.length (awaiting retryingWithIntercepter))
                   (fire 0 DISCONNECTED retryingWithIntercepter) in
  connectionStatus retryingWithIntercepter = CONNECTING /\
  isPending (timers retryingWithIntercepter) 0 /\
  opt (options retryingWithIntercepter) username = None /\
  (exists merged,
      options w' = Some merged /\
      shallowMerge (retryOptions 3 100 10000) freshCredentials merged) /\
  currentRetryCount w' = 1 /\
  native w'
  = native retryingWithIntercepter
    ++ [connectMqtt "c1" 60%Z "alice" "secret" true].
Proof.
  intros w'.
  assert (isPending (timers retryingWithIntercepter) 0) as Hp
    by (eexists; split; vm_compute; reflexivity).
  assert (DISCONNECTED <> CONNECTED) as Hs by discriminate.
  destruct (retry_sends_intercepted_options
              0 DISCONNECTED retryingWithIntercepter
              (fun _ => Some freshCredentials) eq_refl Hp Hs eq_refl)
    as (_ & M & K & _ & _ & N).
  split; [vm_compute; reflexivity|].
  split; [exact Hp|].
  split; [vm_compute; reflexivity|].
  split; [exact M|].
  split; [exact K|].
  vm_compute; reflexivity.
Defined.

(** X7.  [remove()] does not end a retry chain: it leaves the status, the
    retry count and the timers as they are, so a retry timer pending while
    CONNECTING still fires after it and, the native layer not being
    connected, [connectMqtt] is called again for the removed client. *)
Theorem remove_does_not_stop_retries :
  forall (EV : MQTT_EVENTS) (h : nat) (s : CONNECTION_STATE) (w : World),
    connectionStatus w = CONNECTING ->
    isPending (timers w) h ->
    s <> CONNECTED ->
    let w1 := remove EV w in
    let w2 := resume (List.length (awaiting w1)) (fire h s w1) in
    connectionStatus w1 = CONNECTING /\
    timers w1 = timers w /\
    retryTimer w1 = retryTimer w /\
    currentRetryCount w1 = currentRetryCount w /\
    exists keepAlive username password,
      native w2
      = native w
        ++ [removeMqtt (clientId w);
            connectMqtt (clientId w) keepAlive username password true].
Proof.
  intros EV h s w Hc Hp Hs w1 w2.
  repeat split; auto.
  unfold w2; rewrite (retry_round h s w1 Hp Hs).
  set (v := resetOptions _ _).
  assert (connectionStatus v = CONNECTING) as Hv.
  { unfold v; destruct (fst (askIntercepter w1)); exact Hc. }
  rewrite (connection_native v Hv).
  assert (native v = native w ++ [removeMqtt (clientId w)] /\
          clientId v = clientId w) as (-> & ->)
    by (unfold v; destruct (fst (askIntercepter w1)); split; reflexivity).
  rewrite <- app_assoc; simpl; eauto.
Qed.

Lemma remove_does_not_stop_retries_witness :
  connectionStatus connectingSession = CONNECTING /\
  isPending (timers connectingSession) 0 /\
  exists keepAlive username password,
    native (resume 0 (fire 0 CONNECTING (remove events connectingSession)))
    = native connectingSession
      ++ [removeMqtt "c1"; connectMqtt "c1" keepAlive username password true].
Proof.
  assert (isPending (timers connectingSession) 0) as Hp
    by (eexists; split; reflexivity).
  split; [reflexivity | split; [exact Hp|]].
  refine (proj2 (proj2 (proj2 (proj2
            (remove_does_not_stop_retries
               events 0 CONNECTING connectingSession eq_refl Hp _))))).
  discriminate.
Defined.

(** ** A session made without a host *)

Lemma onlyUserHandlers_add (e : EventEmitter.t) (k : string) (h : Handler) :
  onlyUserHandlers e = true -> userHandler h = true ->
  onlyUserHandlers (e ++ [Some (k, h)]) = true.
Proof.
  unfold onlyUserHandlers; intros He Hh.
  rewrite EventEmitterFacts.registrations_app, forallb_app, He; simpl.
  now rewrite Hh.
Qed.

Lemma onlyUserHandlers_sub (e e' : EventEmitter.t) :
  (forall kh, In kh (EventEmitter.registrations e') ->
              In kh (EventEmitter.registrations e)) ->
  onlyUserHandlers e = true -> onlyUserHandlers e' = true.
Proof.
  unfold onlyUserHandlers; rewrite !forallb_forall; auto.
Qed.

Lemma onlyUserHandlers_listeners (e : EventEmitter.t) (k : string) :
  onlyUserHandlers e = true ->
  ~ In connectedHandler (EventEmitter.listeners k e).
Proof.
  unfold onlyUserHandlers; rewrite forallb_forall; intros H Hin.
  apply EventEmitterFacts.listeners_registrations in Hin.
  apply H in Hin; discriminate.
Qed.

Lemma step_onlyUserHandlers (EV : MQTT_EVENTS) (a : Action) (w : World) :
  onlyUserHandlers (eventEmitter w) = true ->
  connectionStatus w <> CONNECTED ->
  onlyUserHandlers (eventEmitter (step EV w a)) = true /\
  connectionStatus (step EV w a) <> CONNECTED.
Proof.
  intros He Hs.
  destruct a as [o| | |topic qos on os oe|s|f|cb|cb|cb|token|k ack|h st|n];
    cbn [step].
  - destruct (connect_frame o w) as (_ & _ & _ & -> & _ & -> & _).
    split; [auto | discriminate].
  - split; [exact He | discriminate].
  - split; [|exact Hs].
    eapply onlyUserHandlers_sub; [|exact He].
    intros kh Hin; unfold remove in Hin;
      cbn [eventEmitter set_eventEmitter invoke set_native] in Hin.
    apply EventEmitterFacts.removeAll_registrations in Hin as [Hin _].
    now apply EventEmitterFacts.removeAll_registrations in Hin as [Hin _].
  - rewrite subscribe_spec; cbn [snd eventEmitter set_eventEmitter
                                  connectionStatus invoke set_native set_tag].
    split; [|exact Hs].
    change (eventEmitter w ++ [?a; ?b; ?c])
      with (eventEmitter w ++ [a] ++ [b] ++ [c]).
    rewrite !app_assoc.
    repeat apply onlyUserHandlers_add; auto.
  - split; [|exact Hs].
    eapply onlyUserHandlers_sub; [|exact He].
    intros kh Hin; unfold removeSubscription, removeListener in Hin;
      cbn [eventEmitter set_eventEmitter] in Hin.
    now repeat apply EventEmitterFacts.remove_registrations in Hin.
  - split; [exact He | exact Hs].
  - split; [|exact Hs]; apply onlyUserHandlers_add; auto.
  - split; [|exact Hs]; apply onlyUserHandlers_add; auto.
  - split; [|exact Hs]; apply onlyUserHandlers_add; auto.
  - split; [|exact Hs].
    eapply onlyUserHandlers_sub; [|exact He].
    intros kh Hin; unfold removeListener in Hin;
      cbn [eventEmitter set_eventEmitter] in Hin.
    now apply EventEmitterFacts.remove_registrations in Hin.
  - unfold emit.
    destruct (handlers_frame (EventEmitter.listeners k (eventEmitter w)) ack w)
      as (_ & _ & _ & -> & _).
    destruct (handlers_told (EventEmitter.listeners k (eventEmitter w)) ack w w
                (onlyUserHandlers_listeners _ k He) (sameView_refl w))
      as (_ & _ & (-> & _)).
    split; auto.
  - destruct (fire_frame h st w) as (_ & _ & -> & _ & _ & _ & -> & _).
    split; auto.
  - unfold resume; destruct (nth_error (awaiting w) n) as [k|]; [|split; auto].
    rewrite continue_eventEmitter; split; [exact He|].
    destruct k as [o c|o]; cbn [continue].
    + cbn [connectionStatus set_mqtt5DisconnectReasonCode].
      rewrite connect_status; discriminate.
    + destruct (connection_frame
                  (resetOptions o (set_awaiting (drop n (awaiting w)) w)))
        as (_ & _ & _ & _ & -> & _).
      now destruct o.
Qed.

(** X8.  A session constructed with an empty host never becomes CONNECTED:
    the constructor returned before registering its connected handler, so
    whatever is done to the session and whichever events are delivered its
    status is never CONNECTED and neither of the constructor's listeners
    is in the emitter; [createMqtt] is never called; and yet [connect]
    still calls [connectMqtt] for the client that was never created. *)
Theorem empty_host_session_never_connected :
  forall (EV : MQTT_EVENTS) (l : list Action) (cid : string) (prt : Z)
         (o override : option MqttOptions),
    let w := run EV l (constructor EV [] cid "" prt o) in
    connectionStatus w <> CONNECTED /\
    onlyUserHandlers (eventEmitter w) = true /\
    forallb (sessionCall cid) (native w) = true /\
    exists keepAlive username password,
      native (connect override w)
      = native w ++ [connectMqtt cid keepAlive username password true].
Proof.
  intros EV l cid prt o override w.
  assert (forall v, onlyUserHandlers (eventEmitter v) = true ->
                    connectionStatus v <> CONNECTED ->
                    onlyUserHandlers (eventEmitter (run EV l v)) = true /\
                    connectionStatus (run EV l v) <> CONNECTED) as H.
  { induction l as [|a l IH]; intros v He Hs; simpl; auto.
    destruct (step_onlyUserHandlers EV a v He Hs); auto. }
  destruct (H (constructor EV [] cid "" prt o)) as (He & Hs);
    [reflexivity | discriminate |].
  destruct (run_native EV l (constructor EV [] cid "" prt o))
    as (rest & E & F).
  fold w in He, Hs, E.
  repeat split; auto.
  - rewrite E; exact F.
  - destruct (connect_frame override w) as (_ & _ & _ & _ & _ & _ & ->).
    unfold w; rewrite run_clientId; eauto.
Qed.


(** ** A disconnect event by itself *)

Lemma handlers_store (l : list Handler) (ack : Ack) (w : World) :
  ~ In connectedHandler l ->
  mqtt5DisconnectReasonCode (fold_left (fun w h => handle h ack w) l w)
  = storedAfter w l ack.
Proof.
  revert w; induction l as [|h l IH]; intros w Hn.
  - unfold storedAfter; simpl; now destruct (connectionStatus w).
  - assert (h <> connectedHandler) as Hh by (intros ->; apply Hn; now left).
    assert (~ In connectedHandler l) as Hl by (intros X; apply Hn; now right).
    simpl fold_left; rewrite (IH _ Hl).
    destruct (handle_sameView h ack w w Hh (sameView_refl w))
      as (S & _ & _ & _ & R).
    unfold storedAfter; rewrite S.
    destruct (connectionStatus w) eqn:E; [now apply R| |];
      destruct h as [| | | | |d [|cb|cb]]; try contradiction;
      simpl; rewrite ?E; simpl;
      try destruct (throwsOn cb (reasonCode ack));
      simpl; rewrite ?E; simpl;
      try reflexivity;
      try (destruct (existsb _ l); reflexivity).
Qed.

(** X9.  A disconnect event never changes the connection status by
    itself: after it has been delivered to every listener of a session the
    status, the retry count, the options, the timers and the native call
    log are as before (a session that was CONNECTED still says CONNECTED,
    until the auto-reconnect's [connect] runs or the application calls a
    method).  The event's reason code is stored only when the
    auto-reconnect listener is registered and the session does not say
    CONNECTED; otherwise the stored code stays as it was. *)
Theorem disconnect_event_keeps_status :
  forall (EV : MQTT_EVENTS) (w : World) (ack : Ack),
    reachable EV w ->
    CONNECTED_EVENT EV <> DISCONNECTED_EVENT EV ->
    let channel := (clientId w ++ DISCONNECTED_EVENT EV)%string in
    let w' := emit channel ack w in
    connectionStatus w' = connectionStatus w /\
    currentRetryCount w' = currentRetryCount w /\
    options w' = options w /\
    timers w' = timers w /\
    retryTimer w' = retryTimer w /\
    native w' = native w /\
    eventEmitter w' = eventEmitter w /\
    mqtt5DisconnectReasonCode w'
    = storedAfter w (EventEmitter.listeners channel (eventEmitter w)) ack.
Proof.
  intros EV w ack Hr Hne channel w'.
  pose proof (no_connectedHandler_on_disconnected EV w Hr Hne) as Hno.
  destruct (handlers_told _ ack w w Hno (sameView_refl w))
    as (_ & _ & (V1 & V2 & V3 & _)).
  destruct (handlers_frame (EventEmitter.listeners channel (eventEmitter w))
                           ack w) as (F1 & F2 & F3 & F4 & _).
  repeat split; auto.
  apply handlers_store, Hno.
Qed.

Lemma disconnect_event_keeps_status_witness :
  reachable events connectedSession /\
  connectionStatus
    (emit "c1disconnected" (ackOf (Some 135%Z)) connectedSession)
  = CONNECTED.
Proof.
  assert (reachable events connectedSession) as Hr
    by (do 5 eexists; reflexivity).
  split; [exact Hr|].
  refine (proj1 (disconnect_event_keeps_status
                   events connectedSession (ackOf (Some 135%Z)) Hr _)).
  discriminate.
Defined.

(** ** Who listens to a subscription *)

Lemma listeners_app (k : string) (e1 e2 : EventEmitter.t) :
  EventEmitter.listeners k (e1 ++ e2)
  = EventEmitter.listeners k e1 ++ EventEmitter.listeners k e2.
Proof.
  induction e1 as [|[[k' h]|] e1 IH]; simpl; auto.
  destruct (k' =? k)%string; simpl; now rewrite IH.
Qed.

Lemma append_suffix_neq (a s : string) : s <> "" -> (a ++ s)%string <> a.
Proof.
  intros Hs; induction a as [|c a IH]; simpl; auto.
  intros H; injection H as H; auto.
Qed.

(** X10.  When the success and the failure suffix are non-empty and
    differ, [subscribe] adds exactly one listener to each of its three
    identifiers: the message callback to [eventId], the success callback
    to [eventId + SUCCESS], the error callback to [eventId + FAILURE], each
    after the listeners already there; and once the returned object's
    [remove()] has run, every identifier has the listeners it had before
    the subscription. *)
Theorem subscribe_listens_on_its_identifiers :
  forall (EV : MQTT_EVENTS) (w : World) (topic : string)
         (qos : option MqttQos) (onEvent : Callback)
         (onSuccess onError : option Callback) (k : string),
    SUBSCRIPTION_SUCCESS_EVENT EV <> "" ->
    SUBSCRIPTION_FAILED_EVENT EV <> "" ->
    SUBSCRIPTION_SUCCESS_EVENT EV <> SUBSCRIPTION_FAILED_EVENT EV ->
    let r := subscribe EV topic qos onEvent onSuccess onError w in
    let id := fst (getMqttSubscribeEventId topic (nullish qos 1) w) in
    let ok := (id ++ SUBSCRIPTION_SUCCESS_EVENT EV)%string in
    let ko := (id ++ SUBSCRIPTION_FAILED_EVENT EV)%string in
    let e := eventEmitter w in
    let e' := eventEmitter (snd r) in
    EventEmitter.listeners id e'
    = EventEmitter.listeners id e ++ [subscriptionListener onEvent] /\
    EventEmitter.listeners ok e'
    = EventEmitter.listeners ok e ++ [subscriptionSuccess onSuccess] /\
    EventEmitter.listeners ko e'
    = EventEmitter.listeners ko e ++ [subscriptionFailed onError] /\
    EventEmitter.listeners
      k (eventEmitter (removeSubscription (fst r) (snd r)))
    = EventEmitter.listeners k e.
Proof.
  intros EV w topic qos onEvent onSuccess onError k Hs Hf Hsf r id ok ko e e'.
  pose proof (subscribe_spec EV topic qos onEvent onSuccess onError w) as S.
  cbv zeta in S; fold r id ok ko e in S.
  assert (e' = e ++ [Some (id, subscriptionListener onEvent);
                     Some (ok, subscriptionSuccess onSuccess);
                     Some (ko, subscriptionFailed onError)]) as E
    by (unfold e'; rewrite S; reflexivity).
  assert (ok <> id) as H1 by now apply append_suffix_neq.
  assert (ko <> id) as H2 by now apply append_suffix_neq.
  assert (ok <> ko) as H3
    by (intros H; apply append_inv_head in H; contradiction).
  assert ((id =? ok)%string = false /\ (id =? ko)%string = false /\
          (ko =? ok)%string = false) as (H1' & H2' & H3')
    by (repeat split; apply String.eqb_neq; congruence).
  apply String.eqb_neq in H1, H2, H3.
  clearbody id ok ko.
  split; [|split; [|split]].
  - rewrite E, listeners_app; simpl.
    now rewrite String.eqb_refl, H1, H2.
  - rewrite E, listeners_app; simpl.
    now rewrite String.eqb_refl, H1', H3'.
  - rewrite E, listeners_app; simpl.
    now rewrite String.eqb_refl, H2', H3.
  - replace (fst r)
      with {| listener := List.length e + 0; success := List.length e + 1;
              failed := List.length e + 2 |}
      by (rewrite S, Nat.add_0_r; reflexivity).
    rewrite (removeSubscription_app e _ 0 1 2 (snd r) E), listeners_app.
    simpl; now rewrite app_nil_r.
Qed.

Lemma subscribe_listens_on_its_identifiers_witness :
  SUBSCRIPTION_SUCCESS_EVENT events <> "" /\
  EventEmitter.listeners
    "mqtt_client#c1#subscribe_mqtt#news#1#3"
    (eventEmitter
       (snd (subscribe events "news" None 9 None None twoSubscriptions)))
  = [subscriptionListener 9].
Proof.
  assert (SUBSCRIPTION_SUCCESS_EVENT events <> "") as H by discriminate.
  split; [exact H|].
  refine (proj1 (subscribe_listens_on_its_identifiers
                   events twoSubscriptions "news" None 9 None None ""
                   H _ _)); discriminate.
Defined.

(** ** The timer the session holds *)

Lemma pendingTimers_held (l : list Timer) (r : option nat) :
  (forall h, isPending l h -> r = Some h) ->
  pendingTimers l
  = match r with
    | Some h =>
        match nth_error l h with
        | Some t => if pending t then [t] else []
        | None => []
        end
    | None => []
    end.
Proof.
  revert r; induction l as [|t l IH]; intros r H.
  - destruct r as [[|h]|]; reflexivity.
  - unfold pendingTimers; simpl; destruct (pending t) eqn:E.
    + assert (r = Some 0) as -> by (apply H; exists t; auto).
      simpl; rewrite E; f_equal.
      apply pendingTimers_none.
      intros h [x [Hn Hp]].
      assert (Some 0 = Some (S h)) by (apply H; exists x; auto).
      discriminate.
    + fold (pendingTimers l).
      rewrite (IH (match r with Some (S n) => Some n | _ => None end)).
      * destruct r as [[|h]|]; simpl; auto; now rewrite E.
      * intros h [x [Hn Hp]].
        now rewrite (H (S h)) by (exists x; auto).
Qed.

(** X11.  In every state a session can reach, the pending timers are at
    most the one timer the session's [retryTimer] handle names: a timer
    that the handle no longer names has fired or was cancelled, so
    [clearTimeout(this.retryTimer)] always cancels all there is to
    cancel. *)
Theorem pending_timer_is_the_held_one :
  forall (EV : MQTT_EVENTS) (l : list Action) (cid hst : string) (prt : Z)
         (o : option MqttOptions),
    let w := run EV l (constructor EV [] cid hst prt o) in
    pendingTimers (timers w) = heldTimer w /\
    pendingTimers (timers (clearTimeout (retryTimer w) w)) = [].
Proof.
  intros EV l cid hst prt o w.
  assert (Inv EV w) as I by (apply Inv_run, Inv_constructor).
  split.
  - apply pendingTimers_held, (inv_timer EV), I.
  - apply pendingTimers_none, (Inv_clearTimeout EV w I).
Qed.
